(** * RizviGPT backend: the generation service of [backend/llm_service.py]

    A shallow embedding of the class [LLMService] and of the factory
    [create_llm_service], and the properties of prompt construction,
    response clean-up, streaming and backend selection; then the
    endpoints of [backend/app.py] that use the service.

    Python values are modelled as follows.
    - A [str] is a sequence of Unicode code points: [list N].  [len] is
      [length], slicing is [take]/[drop].
    - A [dict] with string keys is a finite map [gmap str str].
    - A generator is the finite list of the values it yields, in order.
    - A call that may raise returns a [result]. *)

From Stdlib Require Import NArith ZArith List Ascii String Lia Bool.
From stdpp Require Import gmap list.
Import ListNotations.

Local Open Scope nat_scope.

(** ** Python strings *)

Definition char := N.
Definition str := list char.

(** An ASCII literal as a Python string. *)
Definition py (s : string) : str := map N_of_ascii (list_ascii_of_string s).

Definition str_eqb (a b : str) : bool := bool_decide (a = b).

(** [ch.isspace()] for one code point, the set CPython uses for
    [str.strip()] and [str.split()] without arguments. *)
Definition isspace (c : char) : bool :=
  ((9 <=? c) && (c <=? 13) || (28 <=? c) && (c <=? 32)
   || (c =? 133) || (c =? 160) || (c =? 5760)
   || (8192 <=? c) && (c <=? 8202)
   || (c =? 8232) || (c =? 8233) || (c =? 8239) || (c =? 8287)
   || (c =? 12288))%N.

Fixpoint lstrip (s : str) : str :=
  match s with
  | [] => []
  | c :: s' => if isspace c then lstrip s' else s
  end.

Definition rstrip (s : str) : str := rev (lstrip (rev s)).

(** [s.strip()] *)
Definition strip (s : str) : str := rstrip (lstrip s).

(** [s.startswith(pat)] *)
Fixpoint startswith (pat s : str) : bool :=
  match pat, s with
  | [], _ => true
  | _ :: _, [] => false
  | p :: pat', c :: s' => (p =? c)%N && startswith pat' s'
  end.

(** [pat in s] *)
Fixpoint contains (pat s : str) : bool :=
  match s with
  | [] => startswith pat []
  | _ :: s' => startswith pat s || contains pat s'
  end.

(** [s.split(sep)] for a non-empty separator, scanning left to right.
    [split_aux sep skip s] returns the piece under construction and the
    pieces after it; [skip] counts the characters of a separator that has
    just been matched and is still to be consumed. *)
Fixpoint split_aux (sep : str) (skip : nat) (s : str) : str * list str :=
  match s with
  | [] => ([], [])
  | c :: s' =>
      match skip with
      | S k => split_aux sep k s'
      | O =>
          if startswith sep s
          then let '(p, ps) := split_aux sep (length sep - 1) s' in ([], p :: ps)
          else let '(p, ps) := split_aux sep 0 s' in (c :: p, ps)
      end
  end.

Definition split (sep s : str) : list str :=
  let '(p, ps) := split_aux sep 0 s in p :: ps.

(** [s.replace(pat, "")] for a non-empty pattern: every non-overlapping
    occurrence, found left to right, is dropped. *)
Fixpoint remove_aux (pat : str) (skip : nat) (s : str) : str :=
  match s with
  | [] => []
  | c :: s' =>
      match skip with
      | S k => remove_aux pat k s'
      | O =>
          if startswith pat s
          then remove_aux pat (length pat - 1) s'
          else c :: remove_aux pat 0 s'
      end
  end.

Definition remove (pat s : str) : str := remove_aux pat 0 s.

(** [s.split()]: the maximal runs of non-whitespace characters.
    [words_aux s] returns the run that starts [s] (empty when [s] starts
    with whitespace) and the words after it. *)
Fixpoint words_aux (s : str) : str * list str :=
  match s with
  | [] => ([], [])
  | c :: s' =>
      let '(w, ws) := words_aux s' in
      if isspace c
      then ([], match w with [] => ws | _ => w :: ws end)
      else (c :: w, ws)
  end.

Definition words (s : str) : list str :=
  let '(w, ws) := words_aux s in
  match w with [] => ws | _ => w :: ws end.

(** [sep.join(parts)] *)
Fixpoint join (sep : str) (parts : list str) : str :=
  match parts with
  | [] => []
  | [p] => p
  | p :: ps => p ++ sep ++ join sep ps
  end.

(** [l[-n:]] for [n > 0]: the last [n] elements, or all of [l] when it
    is shorter. *)
Definition last_n {A} (n : nat) (l : list A) : list A :=
  drop (length l - n) l.

Definition NL : str := [10%N].
Definition SPACE : str := [32%N].

(** ** [_clean_response] *)

Definition QUESTION_LABEL : str := py "Question:".
Definition ANSWER_LABEL : str := py "Answer:".
Definition PARAGRAPH_BREAK : str := NL ++ NL.

Definition _clean_response (response : str) : str :=
  let response :=
    if contains QUESTION_LABEL response
    then hd [] (split QUESTION_LABEL response)
    else response in
  let response := strip (remove ANSWER_LABEL response) in
  let paragraphs := split PARAGRAPH_BREAK response in
  let response :=
    if (1 <? length paragraphs) && (500 <? length response)
    then hd [] paragraphs
    else response in
  strip response.

(** ** Exceptions and external collaborators *)

Inductive exn :=
| ValueError (msg : str)
| IndexError
| LibraryError (msg : str).

Inductive result (A : Type) :=
| Ok (a : A)
| Raise (e : exn).
Arguments Ok {A} a.
Arguments Raise {A} e.

(** A chat message is a Python [dict] with string keys. *)
Abbreviation Message := (gmap str str).

Definition mk_message (role content : str) : Message :=
  <[py "content" := content]> (<[py "role" := role]> ∅).

(** [msg.get(key, default)] *)
Definition dict_get (m : Message) (key default : str) : str :=
  match m !! key with
  | Some v => v
  | None => default
  end.

(** The arguments of [client.chat.completions.create].  The sampling
    temperature (0.7 in both calls) is a float and is left out. *)
Record ChatRequest := {
  req_model : str;
  req_messages : list Message;
  req_max_tokens : Z
}.

(** The remote client.  [completions_create] is the call without
    [stream]: it answers with the [message.content] of each choice.
    [completions_stream] is the call with [stream=True]: it answers with
    the chunks, each given by the [delta.content] of its choices
    ([None] when a delta carries no text).  What each returns is the
    sampled output of that one call. *)
Record GroqClient := {
  client_api_key : option str;
  completions_create : ChatRequest -> list str;
  completions_stream : ChatRequest -> list (list (option str))
}.

(** The [transformers] text-generation pipeline: for a prompt it returns
    the [generated_text] of its single sequence
    ([num_return_sequences=1]), the sampled output of that call. *)
Definition Generator := str -> str.

(** An instance of [LLMService].  [__init__] stores the flag
    [use_local_model] and, according to it, either the attributes of
    [_init_groq] or those of [_init_local_model]. *)
Inductive LLMService :=
| GroqService (client : GroqClient) (model : str)
| LocalService (device : str) (generator : Generator).

Definition use_local_model (self : LLMService) : bool :=
  match self with
  | GroqService _ _ => false
  | LocalService _ _ => true
  end.

(** What initialisation reads from outside the program. *)
Record World := {
  environ : gmap str str;                          (* os.environ *)
  path_exists : str -> bool;                       (* os.path.exists *)
  cuda_is_available : bool;                        (* torch.cuda.is_available() *)
  load_pipeline : str -> str -> result Generator;  (* from_pretrained + pipeline *)
  Groq : option str -> result GroqClient           (* Groq(api_key=...) *)
}.

(** [os.getenv(name)] and [os.getenv(name, default)] *)
Definition getenv (w : World) (name : str) : option str := environ w !! name.
Definition getenv_default (w : World) (name default : str) : str :=
  match environ w !! name with
  | Some v => v
  | None => default
  end.

(** [s.lower()] on the ASCII letters.  Code points outside ASCII are
    left as they are; none of them lower-cases to a letter of ["true"],
    the only string the result is compared with. *)
Definition lower_char (c : char) : char :=
  if ((65 <=? c) && (c <=? 90))%N then (c + 32)%N else c.
Definition lower (s : str) : str := map lower_char s.

(** Python truthiness of an optional string and of an optional list. *)
Definition truthy_str (s : option str) : bool :=
  match s with
  | Some (_ :: _) => true
  | _ => false
  end.

Definition truthy_list {A} (l : option (list A)) : bool :=
  match l with
  | Some (_ :: _) => true
  | _ => false
  end.

Definition or_empty {A} (l : option (list A)) : list A :=
  match l with
  | Some l => l
  | None => []
  end.

(** ** Initialisation *)

Definition DEFAULT_MODEL_PATH : str := py "./trained_model/final_model".
Definition GROQ_MODEL : str := py "llama-3.1-8b-instant".

Definition _init_groq (w : World) : result LLMService :=
  match Groq w (getenv w (py "GROQ_API_KEY")) with
  | Ok client => Ok (GroqService client GROQ_MODEL)
  | Raise e => Raise e
  end.

Definition _init_local_model (w : World) (model_path : option str)
  : result LLMService :=
  let model_path :=
    if truthy_str model_path then or_empty model_path
    else getenv_default w (py "LOCAL_MODEL_PATH") DEFAULT_MODEL_PATH in
  if negb (path_exists w model_path)
  then Raise (ValueError (py "Local model not found at " ++ model_path))
  else
    let device := if cuda_is_available w then py "cuda" else py "cpu" in
    match load_pipeline w model_path device with
    | Ok generator => Ok (LocalService device generator)
    | Raise e => Raise e
    end.

(** [LLMService(use_local_model, local_model_path)] *)
Definition LLMService_init (w : World) (use_local : bool)
  (local_model_path : option str) : result LLMService :=
  if use_local then _init_local_model w local_model_path else _init_groq w.

(** The two settings [create_llm_service] reads from the environment. *)
Definition env_use_local (w : World) : bool :=
  str_eqb (lower (getenv_default w (py "USE_LOCAL_MODEL") (py "false")))
          (py "true").

Definition env_local_model_path (w : World) : str :=
  getenv_default w (py "LOCAL_MODEL_PATH") DEFAULT_MODEL_PATH.

(** The factory.  [except Exception] catches every exception of the
    first construction; the second one is outside the [try]. *)
Definition create_llm_service (w : World) : result LLMService :=
  let use_local := env_use_local w in
  let local_model_path := env_local_model_path w in
  match LLMService_init w use_local
          (if use_local then Some local_model_path else None) with
  | Ok service => Ok service
  | Raise _ => LLMService_init w false None
  end.

(** ** Prompt construction and generation *)

Definition INDENT : str := py "            ".

Definition PERSONA_HEAD : str :=
  NL ++ INDENT ++ py "You are RizviGPT, an AI assistant with deep knowledge about the Rizvi College Of Engineering."
  ++ NL ++ INDENT ++ py "You have access to college documents, course materials, policies, and procedures."
  ++ NL ++ INDENT ++ py "Answer questions accurately based on the provided context. If you don't have enough information, say so."
  ++ NL ++ INDENT.

Definition PERSONA_TAIL : str := NL ++ py "        ".

(** The system prompt literal of [_generate_groq]. *)
Definition SYSTEM_PROMPT : str :=
  PERSONA_HEAD
  ++ py "Be helpful, concise, and student-friendly. Be very flexible and elaborate on your answers and do not just retrieve data from the context."
  ++ PERSONA_TAIL.

(** The system prompt literal of [_stream_groq]. *)
Definition SYSTEM_PROMPT_STREAM : str :=
  PERSONA_HEAD ++ py "Be helpful, concise, and student-friendly." ++ PERSONA_TAIL.

Definition CONTEXT_HEADER : str :=
  NL ++ NL ++ py "Relevant context from college documents:" ++ NL.

(** The message list both remote paths build, from their own system
    prompt literal. *)
Definition groq_messages (persona query : str) (context : option str)
  (chat_history : option (list Message)) : list Message :=
  let messages := [] in
  let system_prompt := persona in
  let system_prompt :=
    if truthy_str context
    then system_prompt ++ CONTEXT_HEADER ++ or_empty context
    else system_prompt in
  let messages := messages ++ [mk_message (py "system") system_prompt] in
  let messages :=
    if truthy_list chat_history
    then messages ++ last_n 5 (or_empty chat_history)
    else messages in
  messages ++ [mk_message (py "user") query].

Definition _generate_groq (client : GroqClient) (model : str) (query : str)
  (context : option str) (chat_history : option (list Message)) : result str :=
  let messages := groq_messages SYSTEM_PROMPT query context chat_history in
  let response :=
    completions_create client
      {| req_model := model; req_messages := messages; req_max_tokens := 1024 |} in
  match response with
  | content :: _ => Ok content
  | [] => Raise IndexError
  end.

(** One turn of the history as a line of the local prompt. *)
Definition render_turn (msg : Message) : str :=
  let role := dict_get msg (py "role") (py "user") in
  let content := dict_get msg (py "content") [] in
  if str_eqb role (py "user")
  then py "Question: " ++ content
  else py "Answer: " ++ content.

(** The list [prompt_parts] at the end of [_build_local_prompt]. *)
Definition prompt_parts (query : str) (context : option str)
  (chat_history : option (list Message)) : list str :=
  let parts := [] in
  let parts :=
    if truthy_str context
    then parts ++ [py "Context from college documents:"] ++ [or_empty context] ++ [[]]
    else parts in
  let parts :=
    if truthy_list chat_history
    then parts ++ map render_turn (last_n 3 (or_empty chat_history))
    else parts in
  parts ++ [py "Question: " ++ query] ++ [py "Answer:"].

Definition _build_local_prompt (self : LLMService) (query : str)
  (context : option str) (chat_history : option (list Message)) : str :=
  join NL (prompt_parts query context chat_history).

Definition _generate_local (self : LLMService) (generator : Generator)
  (query : str) (context : option str) (chat_history : option (list Message))
  : str :=
  let prompt := _build_local_prompt self query context chat_history in
  let generated_text := generator prompt in
  let response := strip (drop (length prompt) generated_text) in
  _clean_response response.

Definition generate_response (self : LLMService) (query : str)
  (context : option str) (chat_history : option (list Message)) : result str :=
  match self with
  | LocalService _ generator =>
      Ok (_generate_local self generator query context chat_history)
  | GroqService client model =>
      _generate_groq client model query context chat_history
  end.

(** ** Streaming *)

(** A generator that has run to its end: the fragments it yielded and
    the exception that ended it, if any. *)
Definition Stream := (list str * option exn)%type.

(** [enumerate(words)] *)
Definition enumerate {A} (l : list A) : list (Z * A) :=
  combine (map Z.of_nat (seq 0 (length l))) l.

(** The loop of the local branch of [generate_streaming_response]. *)
Definition word_fragments (response : str) : list str :=
  let words := words response in
  map (fun '(i, word) =>
         word ++ (if (i <? Z.of_nat (length words) - 1)%Z then SPACE else []))
      (enumerate words).

(** The loop of [_stream_groq] over the chunks of the stream. *)
Fixpoint stream_chunks (chunks : list (list (option str))) : Stream :=
  match chunks with
  | [] => ([], None)
  | chunk :: rest =>
      match chunk with
      | [] => ([], Some IndexError)
      | delta_content :: _ =>
          let '(fragments, e) := stream_chunks rest in
          (match delta_content with
           | Some (c :: t) => (c :: t) :: fragments
           | _ => fragments
           end, e)
      end
  end.

Definition _stream_groq (client : GroqClient) (model : str) (query : str)
  (context : option str) (chat_history : option (list Message)) : Stream :=
  let messages := groq_messages SYSTEM_PROMPT_STREAM query context chat_history in
  stream_chunks
    (completions_stream client
       {| req_model := model; req_messages := messages; req_max_tokens := 1024 |}).

Definition generate_streaming_response (self : LLMService) (query : str)
  (context : option str) (chat_history : option (list Message)) : Stream :=
  match self with
  | LocalService _ generator =>
      (word_fragments (_generate_local self generator query context chat_history),
       None)
  | GroqService client model =>
      _stream_groq client model query context chat_history
  end.

(** ** Specification-side notions *)


(** The context block of the local prompt. *)
Definition context_block (context : option str) : list str :=
  match context with
  | Some (c :: t) => [py "Context from college documents:"; c :: t; []]
  | _ => []
  end.

(** The content of the system message of the remote prompt. *)
Definition system_content (persona : str) (context : option str) : str :=
  match context with
  | Some (c :: t) => persona ++ CONTEXT_HEADER ++ c :: t
  | _ => persona
  end.

(** The fragments the specification asks of the simulated stream: every
    word but the last is followed by one space. *)
Fixpoint spaced (ws : list str) : list str :=
  match ws with
  | [] => []
  | [w] => [w]
  | w :: ws' => (w ++ SPACE) :: spaced ws'
  end.

(** The part of [s] before the first occurrence of [pat], all of [s]
    when there is none. *)
Fixpoint before (pat s : str) : str :=
  match s with
  | [] => []
  | c :: s' => if startswith pat s then [] else c :: before pat s'
  end.

(** Every whitespace character of [s] is one space that is followed by
    a character that is not whitespace. *)
Fixpoint single_spaced (s : str) : bool :=
  match s with
  | [] => true
  | c :: s' =>
      (if isspace c
       then (c =? 32)%N && match s' with [] => false | d :: _ => negb (isspace d) end
       else true)
      && single_spaced s'
  end.

(** The text of a stream of chunks: the deltas of the first choices,
    a delta without text counting as empty. *)
Definition chunks_text (chunks : list (list (option str))) : str :=
  concat (map (fun chunk => match chunk with
                            | Some text :: _ => text
                            | _ => []
                            end) chunks).

(** A string is trimmed on the left when it does not start with
    whitespace. *)
Definition starts_clean (s : str) : bool :=
  match s with
  | [] => true
  | c :: _ => negb (isspace c)
  end.

(** ** Sample inputs *)

(** Two short paragraphs, padding, and the start of a hallucinated
    question: 600 characters, no whitespace at either end. *)
Definition padded_two_paragraphs : str :=
  py "It opens at 9am." ++ NL ++ NL ++ py "Bring your ID."
  ++ repeat 32%N 559 ++ py "Question:".

(** A short paragraph and a long one: 600 characters. *)
Definition long_two_paragraphs : str :=
  py "It opens at 9am." ++ NL ++ NL ++ repeat 120%N 582.


Definition sample_client (api_key : option str) : GroqClient :=
  {| client_api_key := api_key;
     completions_create := fun _ => [py "It opens at 9am."];
     completions_stream := fun _ => [[Some (py "It opens")]; [None]; [Some (py " at 9am.")]] |}.

(** Modelled from the spec: the constructor of the remote API client,
    which belongs to the [groq] package and not to this repository.  The
    spec calls the credential required and a missing credential a
    configuration error that is fatal at start-up: the constructor
    raises when it is given no key. *)
Definition Groq_requires_key (api_key : option str) : result GroqClient :=
  match api_key with
  | Some key => Ok (sample_client (Some key))
  | None => Raise (LibraryError (py "The api_key client option must be set"))
  end.

(** Local mode requested, no model on disk; [key] is the credential. *)
Definition world_without_model (key : option str) : World :=
  {| environ :=
       match key with
       | Some k => <[py "GROQ_API_KEY" := k]> {[ py "USE_LOCAL_MODEL" := py "True" ]}
       | None => {[ py "USE_LOCAL_MODEL" := py "True" ]}
       end;
     path_exists := fun _ => false;
     cuda_is_available := false;
     load_pipeline := fun _ _ => Raise (LibraryError (py "no weights"));
     Groq := Groq_requires_key |}.

Definition turn (role content : string) : Message :=
  mk_message (py role) (py content).

Definition sample_history : list Message :=
  [turn "user" "one"; turn "assistant" "two"; turn "user" "three";
   turn "assistant" "four"; turn "user" "five"; turn "assistant" "six";
   turn "user" "seven"].

(** A local pipeline that echoes the prompt and continues it with a
    fixed text. *)
Definition echo_generator (continuation : str) : Generator :=
  fun prompt => prompt ++ continuation.

Definition local_service (continuation : str) : LLMService :=
  LocalService (py "cpu") (echo_generator continuation).

(** A local pipeline whose answer has a line break. *)
Definition two_line_service : LLMService :=
  local_service (py " It opens at 9am." ++ NL ++ py "Bring your ID.").

(** ** Further notions *)

(** A word of [s.split()]: not empty and free of whitespace. *)
Definition is_word (w : str) : bool :=
  match w with
  | [] => false
  | _ :: _ => forallb (fun c => negb (isspace c)) w
  end.

(** ** The HTTP layer: [backend/app.py]

    The endpoints that use the generation service.  The request and
    response schemas, the retrieval service and the conversation store
    are other modules: the endpoints are modelled over the fields they
    read and over the calls they make. *)

(** [ChatRequest]: the fields the chat endpoints read. *)
Record ChatRequestModel := {
  request_query : str;
  request_session_id : option str;
  request_use_rag : bool
}.

(** [ChatResponse] *)
Record ChatResponse := {
  reply_response : str;
  reply_context_used : option str;
  reply_session_id : str
}.

(** The arguments of one call of [db_service.save_conversation]. *)
Record SavedTurn := {
  saved_session_id : str;
  saved_user_message : str;
  saved_bot_response : str;
  saved_context_used : option str
}.

(** What the endpoints call outside this module: the conversation
    store, the retrieval service, [str(uuid.uuid4())], and [str] of an
    [HTTPException] with a given status code and detail. *)
Record Collaborators := {
  get_conversation_history : str -> result (list Message);
  save_conversation : SavedTurn -> result unit;
  get_context : str -> Z -> result (option str);
  uuid4 : str;
  http_exception_str : Z -> str -> str
}.

(** What can be raised inside an endpoint: a Python exception of the
    services, or an [HTTPException], which is an [Exception] too. *)
Inductive raised :=
| PyExn (e : exn)
| HttpExn (status_code : Z) (detail : str).

(** What an endpoint answers. *)
Inductive http (A : Type) :=
| Reply (body : A)
| HTTPException (status_code : Z) (detail : str).
Arguments Reply {A} body.
Arguments HTTPException {A} status_code detail.

(** [str(e)] *)
Definition exn_str (e : exn) : str :=
  match e with
  | ValueError msg => msg
  | IndexError => py "list index out of range"
  | LibraryError msg => msg
  end.

Definition raised_str (deps : Collaborators) (r : raised) : str :=
  match r with
  | PyExn e => exn_str e
  | HttpExn status_code detail => http_exception_str deps status_code detail
  end.

(** The body of a [try] block: how it ends, and the calls of
    [save_conversation] it has made, in order. *)
Inductive attempt (A : Type) :=
| Done (a : A)
| Failed (r : raised).
Arguments Done {A} a.
Arguments Failed {A} r.

Definition Eff (A : Type) : Type := (attempt A * list SavedTurn)%type.

Definition ret {A} (a : A) : Eff A := (Done a, []).

Definition bind {A B} (m : Eff A) (k : A -> Eff B) : Eff B :=
  match m with
  | (Done a, saves) => let '(r, saves') := k a in (r, saves ++ saves')
  | (Failed r, saves) => (Failed r, saves)
  end.

Notation "x <- m ;; k" := (bind m (fun x => k))
  (at level 100, m at next level, right associativity).

Definition call {A} (r : result A) : Eff A :=
  match r with
  | Ok a => ret a
  | Raise e => (Failed (PyExn e), [])
  end.

Definition save (deps : Collaborators) (saved : SavedTurn) : Eff unit :=
  match save_conversation deps saved with
  | Ok _ => (Done tt, [saved])
  | Raise e => (Failed (PyExn e), [saved])
  end.

(** [except Exception as e: raise HTTPException(status_code=500,
    detail=str(e))] around the body of an endpoint. *)
Definition except_500 {A} (deps : Collaborators) (body : Eff A)
  : http A * list SavedTurn :=
  match body with
  | (Done a, saves) => (Reply a, saves)
  | (Failed r, saves) => (HTTPException 500 (raised_str deps r), saves)
  end.

(** [request.session_id or str(uuid.uuid4())] *)
Definition chat_session_id (deps : Collaborators) (request : ChatRequestModel)
  : str :=
  if truthy_str (request_session_id request)
  then or_empty (request_session_id request)
  else uuid4 deps.

(** The first lines of both chat endpoints: session, history, context. *)
Definition chat_inputs (deps : Collaborators) (request : ChatRequestModel)
  : Eff (str * list Message * option str) :=
  let session_id := chat_session_id deps request in
  chat_history <-
    (if truthy_str (request_session_id request)
     then call (get_conversation_history deps session_id)
     else ret []) ;;
  context <-
    (if request_use_rag request
     then call (get_context deps (request_query request) 3)
     else ret None) ;;
  ret (session_id, chat_history, context).

(** [POST /chat] *)
Definition chat (deps : Collaborators) (llm_service : LLMService)
  (request : ChatRequestModel) : http ChatResponse * list SavedTurn :=
  except_500 deps
    (inputs <- chat_inputs deps request ;;
     let '(session_id, chat_history, context) := inputs in
     response <-
       call (generate_response llm_service (request_query request) context
               (Some chat_history)) ;;
     _ <- save deps
            {| saved_session_id := session_id;
               saved_user_message := request_query request;
               saved_bot_response := response;
               saved_context_used := context |} ;;
     ret {| reply_response := response;
            reply_context_used :=
              if request_use_rag request then context else None;
            reply_session_id := session_id |}).

(** A [StreamingResponse] once it has been sent: the chunks the client
    received and the exception that cut the body short, if any. *)
Record StreamingResponse := {
  stream_body : list str;
  stream_error : option exn
}.

(** The inner generator [generate] of [chat_stream], run to its end: it
    passes the fragments on, adds them up in [full_response], and saves
    the conversation after the last one. *)
Definition generate (deps : Collaborators) (llm_service : LLMService)
  (request : ChatRequestModel) (session_id : str)
  (chat_history : list Message) (context : option str)
  : StreamingResponse * list SavedTurn :=
  let '(fragments, error) :=
    generate_streaming_response llm_service (request_query request) context
      (Some chat_history) in
  match error with
  | Some e => ({| stream_body := fragments; stream_error := Some e |}, [])
  | None =>
      let full_response :=
        fold_left (fun full_response chunk => full_response ++ chunk)
          fragments [] in
      let saved :=
        {| saved_session_id := session_id;
           saved_user_message := request_query request;
           saved_bot_response := full_response;
           saved_context_used := context |} in
      match save_conversation deps saved with
      | Ok _ => ({| stream_body := fragments; stream_error := None |}, [saved])
      | Raise e =>
          ({| stream_body := fragments; stream_error := Some e |}, [saved])
      end
  end.

(** [POST /chat/stream].  The [try] block ends when the
    [StreamingResponse] is returned; [generate] runs afterwards, while
    the body is sent. *)
Definition chat_stream (deps : Collaborators) (llm_service : LLMService)
  (request : ChatRequestModel) : http StreamingResponse * list SavedTurn :=
  match except_500 deps (chat_inputs deps request) with
  | (Reply (session_id, chat_history, context), saves) =>
      let '(sent, saves') :=
        generate deps llm_service request session_id chat_history context in
      (Reply sent, saves ++ saves')
  | (HTTPException status_code detail, saves) =>
      (HTTPException status_code detail, saves)
  end.

Definition model_type (llm_service : LLMService) : str :=
  if use_local_model llm_service then py "local" else py "groq".

(** [POST /switch-model].  The second component is the global
    [llm_service] after the call. *)
Definition switch_model (w : World) (deps : Collaborators)
  (llm_service : LLMService) (use_local : bool)
  : http Message * LLMService :=
  let local_model_path := env_local_model_path w in
  let body : attempt LLMService :=
    if use_local && negb (path_exists w local_model_path)
    then Failed (HttpExn 400 (py "Local model not found at " ++ local_model_path))
    else
      match create_llm_service w with
      | Ok service => Done service
      | Raise e => Failed (PyExn e)
      end in
  match body with
  | Done service =>
      (Reply
         (<[py "status" := py "success"]>
            (<[py "message" :=
                 py "Switched to "
                 ++ (if use_local then py "local" else py "groq")
                 ++ py " model"]>
               (<[py "model_type" := model_type service]> ∅))),
       service)
  | Failed r => (HTTPException 500 (raised_str deps r), llm_service)
  end.

(** [GET /model-info] *)
Definition get_model_info (w : World) (llm_service : LLMService) : Message :=
  let info :=
    <[py "status" := py "active"]>
      (<[py "model_type" := model_type llm_service]> ∅) in
  match llm_service with
  | LocalService device _ =>
      <[py "model_path" := env_local_model_path w]>
        (<[py "device" := device]> info)
  | GroqService _ model => <[py "model_name" := model]> info
  end.

(** The same collaborators with another conversation store for
    reading, or another retrieval service. *)
Definition with_history (deps : Collaborators)
  (history : str -> result (list Message)) : Collaborators :=
  {| get_conversation_history := history;
     save_conversation := save_conversation deps;
     get_context := get_context deps;
     uuid4 := uuid4 deps;
     http_exception_str := http_exception_str deps |}.

Definition with_context (deps : Collaborators)
  (retrieval : str -> Z -> result (option str)) : Collaborators :=
  {| get_conversation_history := get_conversation_history deps;
     save_conversation := save_conversation deps;
     get_context := retrieval;
     uuid4 := uuid4 deps;
     http_exception_str := http_exception_str deps |}.

(** The text of a turn and the label of its line, read off the fields
    of the turn: the content, empty when the turn has none; the question
    label for the role ["user"] and for a turn without a role, the
    answer label for every other role. *)
Definition turn_content (msg : Message) : str :=
  match msg !! py "content" with
  | Some content => content
  | None => []
  end.

Definition turn_label (msg : Message) : str :=
  match msg !! py "role" with
  | None => py "Question: "
  | Some role =>
      if decide (role = py "user") then py "Question: " else py "Answer: "
  end.


(** ** Further sample inputs *)

(** A remote client that answers with the contents of the messages it
    was sent after the system message, joined by spaces. *)
Definition parrot_client : GroqClient :=
  {| client_api_key := None;
     completions_create :=
       fun request =>
         [join SPACE (map turn_content (tail (req_messages request)))];
     completions_stream := fun _ => [] |}.

(** A retrieval service that is down. *)
Definition broken_retrieval : str -> Z -> result (option str) :=
  fun _ _ => Raise (LibraryError (py "vector store unavailable")).

Definition sample_deps : Collaborators :=
  {| get_conversation_history := fun _ => Ok sample_history;
     save_conversation := fun _ => Ok tt;
     get_context := fun _ _ => Ok (Some (py "Library hours: 9am-5pm."));
     uuid4 := py "123e4567-e89b-12d3-a456-426614174000";
     http_exception_str := fun _ detail => detail |}.

(** A store that cannot be read. *)
Definition broken_store : str -> result (list Message) :=
  fun _ => Raise (LibraryError (py "database is locked")).

Definition sample_request : ChatRequestModel :=
  {| request_query := py "When does the library open?";
     request_session_id := Some (py "s1");
     request_use_rag := true |}.

Definition anonymous_request : ChatRequestModel :=
  {| request_query := py "When does the library open?";
     request_session_id := None;
     request_use_rag := false |}.

(** A remote client whose stream breaks off after one fragment and
    whose completion has no choice. *)
Definition failing_client : GroqClient :=
  {| client_api_key := None;
     completions_create := fun _ => [];
     completions_stream := fun _ => [[Some (py "It opens")]; []; [Some (py " late")]] |}.

(** Local mode requested in the environment, the model on disk. *)
Definition world_with_model : World :=
  {| environ := {[ py "USE_LOCAL_MODEL" := py "TRUE" ]};
     path_exists := fun _ => true;
     cuda_is_available := false;
     load_pipeline := fun _ _ => Ok (echo_generator (py " It opens soon"));
     Groq := Groq_requires_key |}.

(** Local mode requested, the model on disk, the weights unreadable. *)
Definition world_with_broken_model : World :=
  {| environ := <[py "GROQ_API_KEY" := py "gsk_secret"]>
                  {[ py "USE_LOCAL_MODEL" := py "true" ]};
     path_exists := fun _ => true;
     cuda_is_available := true;
     load_pipeline := fun _ _ => Raise (LibraryError (py "no weights"));
     Groq := Groq_requires_key |}.

(** * Properties *)

(** Closed goals are settled by evaluation. *)
Ltac evaluate := vm_compute; reflexivity.
Ltac refute := vm_compute; discriminate.

(** ** Lists and slices *)

Lemma last_n_rev {A} (n : nat) (l : list A) :
  last_n n l = rev (take n (rev l)).
Proof.
  unfold last_n. rewrite firstn_rev, rev_involutive. reflexivity.
Qed.



Lemma last_n_short {A} (n : nat) (l : list A) :
  length l <= n -> last_n n l = l.
Proof.
  intros Hn. unfold last_n. replace (length l - n) with 0 by lia. reflexivity.
Qed.

Lemma truthy_list_last_n {A} (n : nat) (h : option (list A)) :
  (if truthy_list h then last_n n (or_empty h) else []) = last_n n (or_empty h).
Proof. destruct h as [[|x l]|]; reflexivity. Qed.

Lemma groq_messages_shape persona query context chat_history :
  groq_messages persona query context chat_history
  = mk_message (py "system") (system_content persona context)
      :: last_n 5 (or_empty chat_history) ++ [mk_message (py "user") query].
Proof.
  unfold groq_messages, system_content.
  destruct context as [[|c t]|]; destruct chat_history as [[|m h]|];
    simpl; rewrite ?app_nil_r; reflexivity.
Qed.

Lemma prompt_parts_shape query context chat_history :
  prompt_parts query context chat_history
  = context_block context
      ++ map render_turn (last_n 3 (or_empty chat_history))
      ++ [py "Question: " ++ query; py "Answer:"].
Proof.
  unfold prompt_parts, context_block.
  destruct context as [[|c t]|]; destruct chat_history as [[|m h]|];
    simpl; rewrite <- ?app_assoc; reflexivity.
Qed.

Lemma mk_message_role role content :
  mk_message role content !! py "role" = Some role.
Proof.
  unfold mk_message. rewrite lookup_insert_ne by (vm_compute; discriminate).
  apply lookup_insert_eq.
Qed.

Lemma mk_message_content role content :
  mk_message role content !! py "content" = Some content.
Proof. unfold mk_message. apply lookup_insert_eq. Qed.

Lemma join_two_last (l : list str) (a b : str) :
  exists pre, join NL (l ++ [a; b]) = pre ++ a ++ NL ++ b.
Proof.
  induction l as [|x l IH].
  - exists []. reflexivity.
  - destruct IH as [pre IH]. exists (x ++ NL ++ pre).
    change ((x :: l) ++ [a; b]) with (x :: (l ++ [a; b])).
    destruct (l ++ [a; b]) as [|y r] eqn:E.
    + destruct l; discriminate.
    + change (join NL (x :: y :: r)) with (x ++ NL ++ join NL (y :: r)).
      rewrite IH, <- !app_assoc. reflexivity.
Qed.

Lemma word_fragments_go (ws : list str) : forall (k : nat) (n : Z),
  n = Z.of_nat (k + length ws) ->
  map (fun '(i, word) => word ++ (if (i <? n - 1)%Z then SPACE else []))
      (combine (map Z.of_nat (seq k (length ws))) ws)
  = spaced ws.
Proof.
  induction ws as [|w ws IH]; intros k n Hn; [reflexivity|].
  simpl length in *. simpl seq. simpl map. simpl combine. cbn [map].
  destruct ws as [|w' ws'].
  - simpl in *. destruct (Z.ltb_spec (Z.of_nat k) (n - 1)); [lia|].
    rewrite app_nil_r. reflexivity.
  - destruct (Z.ltb_spec (Z.of_nat k) (n - 1)); [|simpl length in Hn; lia].
    change (spaced (w :: w' :: ws')) with ((w ++ SPACE) :: spaced (w' :: ws')).
    f_equal. apply (IH (S k) n). simpl length in *. lia.
Qed.

Lemma word_fragments_spaced (response : str) :
  word_fragments response = spaced (words response).
Proof.
  unfold word_fragments, enumerate. apply word_fragments_go. reflexivity.
Qed.

(** ** Backend selection *)

Lemma init_local_missing_path (w : World) :
  path_exists w (env_local_model_path w) = false ->
  exists e, _init_local_model w (Some (env_local_model_path w)) = Raise e.
Proof.
  intros Hpath. unfold _init_local_model.
  assert (Hsame :
    (if truthy_str (Some (env_local_model_path w))
     then or_empty (Some (env_local_model_path w))
     else getenv_default w (py "LOCAL_MODEL_PATH") DEFAULT_MODEL_PATH)
    = env_local_model_path w).
  { destruct (env_local_model_path w) eqn:E; simpl; [exact E | reflexivity]. }
  rewrite Hsame, Hpath. simpl. eauto.
Qed.

(** C2 (as amended).  When local mode is requested and the local model
    path does not exist, the error of the local initialisation is caught
    and [create_llm_service] returns what building the remote service
    returns: a remote-mode instance as soon as the remote client can be
    constructed, and otherwise the exception of that constructor, which
    is the only one that can reach the caller. *)
Theorem create_llm_service_fallback (w : World) :
  env_use_local w = true ->
  path_exists w (env_local_model_path w) = false ->
  create_llm_service w = _init_groq w
  /\ (forall client, Groq w (getenv w (py "GROQ_API_KEY")) = Ok client ->
        create_llm_service w = Ok (GroqService client GROQ_MODEL)
        /\ use_local_model (GroqService client GROQ_MODEL) = false)
  /\ (forall e, create_llm_service w = Raise e ->
        Groq w (getenv w (py "GROQ_API_KEY")) = Raise e).
Proof.
  intros Hlocal Hpath.
  assert (Hcreate : create_llm_service w = _init_groq w).
  { unfold create_llm_service. rewrite Hlocal. simpl.
    destruct (init_local_missing_path w Hpath) as [e ->]. reflexivity. }
  rewrite Hcreate. unfold _init_groq. split; [reflexivity|]. split.
  - intros client ->. split; reflexivity.
  - intros e. destruct (Groq w _); [discriminate | congruence].
Qed.

Lemma create_llm_service_fallback_witness :
  create_llm_service (world_without_model (Some (py "gsk_secret")))
  = Ok (GroqService (sample_client (Some (py "gsk_secret"))) GROQ_MODEL).
Proof.
  apply (create_llm_service_fallback (world_without_model (Some (py "gsk_secret"))));
    reflexivity.
Defined.

(** C2 as stated fails: local mode requested, no model on disk and no
    credential for the remote client; the exception of the fallback
    construction escapes. *)
Lemma create_llm_service_can_raise :
  env_use_local (world_without_model None) = true
  /\ path_exists (world_without_model None)
       (env_local_model_path (world_without_model None)) = false
  /\ create_llm_service (world_without_model None)
     = Raise (LibraryError (py "The api_key client option must be set")).
Proof. repeat split; reflexivity. Qed.

(** ** History truncation *)

(** C4.  For a history longer than the bound, the remote message list
    holds, between the system message and the user message, exactly the
    last 5 turns, and the local prompt holds, between the context block
    and the current question, exactly the lines of the last 3 turns; in
    both the turns keep their order and their content. *)
Lemma render_turn_line (msg : Message) :
  render_turn msg = turn_label msg ++ turn_content msg.
Proof.
  unfold render_turn, dict_get, str_eqb, turn_label, turn_content.
  destruct (msg !! py "role") as [role|].
  - case_bool_decide; case_decide; try contradiction; reflexivity.
  - rewrite bool_decide_eq_true_2 by reflexivity. reflexivity.
Qed.



(** ** The local prompt *)

(** C5.  The local prompt is the newline-joined list of: the context
    block (label, context, blank line) when the context is a non-empty
    string; one line per turn of the last three turns of the history;
    the line of the current question; the line ["Answer:"].  It
    therefore ends with the current question followed by the answer
    cue. *)
Theorem local_prompt_layout (self : LLMService) (query : str)
  (context : option str) (chat_history : option (list Message)) :
  _build_local_prompt self query context chat_history
  = join NL (context_block context
             ++ map (fun turn =>
                       (match turn !! py "role" with
                        | None => py "Question: "
                        | Some role =>
                            if decide (role = py "user")
                            then py "Question: " else py "Answer: "
                        end)
                       ++ match turn !! py "content" with
                          | Some content => content
                          | None => []
                          end)
                  (rev (take 3 (rev (or_empty chat_history))))
             ++ [py "Question: " ++ query; py "Answer:"])
  /\ (forall role content,
        _build_local_prompt self query None
          (Some [mk_message role content])
        = (if decide (role = py "user") then py "Question: " else py "Answer: ")
          ++ content ++ NL ++ py "Question: " ++ query ++ NL ++ py "Answer:")
  /\ exists before,
       _build_local_prompt self query context chat_history
       = before ++ (py "Question: " ++ query) ++ NL ++ py "Answer:".
Proof.
  unfold _build_local_prompt. rewrite !prompt_parts_shape, last_n_rev.
  split; [|split].
  - do 3 f_equal. apply map_ext. intros turn. apply render_turn_line.
  - intros role content. rewrite prompt_parts_shape.
    cbn [or_empty context_block app].
    rewrite last_n_short by (cbn [length]; lia). cbn [map app].
    rewrite render_turn_line. unfold turn_label, turn_content.
    rewrite mk_message_role, mk_message_content.
    cbn [join]. rewrite <- !app_assoc. reflexivity.
  - rewrite app_assoc. apply join_two_last.
Qed.

(** C9.  The local prompt depends on nothing but the query, the context
    and the history: two calls with these three arguments equal return
    the same string, whatever the service instances they are made on. *)
Theorem local_prompt_deterministic (self1 self2 : LLMService)
  (query1 query2 : str) (context1 context2 : option str)
  (history1 history2 : option (list Message)) :
  query1 = query2 -> context1 = context2 -> history1 = history2 ->
  _build_local_prompt self1 query1 context1 history1
  = _build_local_prompt self2 query2 context2 history2.
Proof. intros -> -> ->. reflexivity. Qed.

Lemma local_prompt_deterministic_witness :
  _build_local_prompt (local_service []) (py "When?") (Some (py "ctx"))
    (Some sample_history)
  = _build_local_prompt (GroqService (sample_client None) GROQ_MODEL)
      (py "When?") (Some (py "ctx")) (Some sample_history).
Proof. apply local_prompt_deterministic; reflexivity. Defined.

(** C10.  A turn is rendered as a question exactly when its role is
    absent or is the string ["user"]; any other role gives an answer
    line, ["system"] and ["assistant"] included; an absent content is
    rendered as the empty string. *)
Theorem render_turn_roles (msg : Message) :
  let content := match msg !! py "content" with Some c => c | None => [] end in
  (render_turn msg = py "Question: " ++ content
   <-> msg !! py "role" = None \/ msg !! py "role" = Some (py "user"))
  /\ (render_turn msg = py "Answer: " ++ content
      <-> exists role, msg !! py "role" = Some role /\ role <> py "user")
  /\ (forall text,
        render_turn (mk_message (py "system") text) = py "Answer: " ++ text
        /\ render_turn (mk_message (py "assistant") text) = py "Answer: " ++ text
        /\ render_turn (mk_message (py "user") text) = py "Question: " ++ text).
Proof.
  cbv zeta. unfold render_turn, dict_get, str_eqb.
  split; [|split].
  - destruct (msg !! py "role") as [role|] eqn:Hrole.
    + case_bool_decide as Hu.
      * subst role. split; auto.
      * split; [intros H; vm_compute in H; discriminate|].
        intros [H|H]; [discriminate | congruence].
    + rewrite bool_decide_eq_true_2 by reflexivity. split; auto.
  - destruct (msg !! py "role") as [role|] eqn:Hrole.
    + case_bool_decide as Hu.
      * subst role. split; [intros H; vm_compute in H; discriminate|].
        intros (role & H & Hne). congruence.
      * split; eauto.
    + rewrite bool_decide_eq_true_2 by reflexivity.
      split; [intros H; vm_compute in H; discriminate|].
      intros (role & H & _). discriminate.
  - intros text. rewrite !mk_message_role, !mk_message_content.
    repeat split.
Qed.

(** ** The remote synchronous path *)

(** The two remote paths do not send the same persona: the streaming
    one lacks the last sentence of the synchronous one. *)
Remark system_prompts_differ :
  SYSTEM_PROMPT <> SYSTEM_PROMPT_STREAM
  /\ length SYSTEM_PROMPT = 476 /\ length SYSTEM_PROMPT_STREAM = 381.
Proof. repeat split; first [evaluate | refute]. Qed.



(** ** Searching in strings *)

Lemma startswith_iff (pat s : str) :
  startswith pat s = true <-> exists rest, s = pat ++ rest.
Proof.
  revert s. induction pat as [|p pat IH]; intros s; simpl.
  - split; eauto.
  - destruct s as [|c s].
    + split; [discriminate | intros [rest H]; discriminate].
    + rewrite andb_true_iff, N.eqb_eq, IH. split.
      * intros [-> [rest ->]]. eauto.
      * intros [rest H]. injection H as -> ->. eauto.
Qed.

Lemma startswith_app (pat a b : str) :
  startswith pat a = true -> startswith pat (a ++ b) = true.
Proof.
  rewrite !startswith_iff. intros [rest ->]. exists (rest ++ b).
  apply eq_sym, app_assoc.
Qed.

Lemma startswith_nil (pat : str) : startswith pat [] = true -> pat = [].
Proof. destruct pat; [reflexivity | discriminate]. Qed.

Lemma contains_nil (s : str) : contains [] s = true.
Proof. destruct s; reflexivity. Qed.

Lemma contains_app_r (pat a s : str) :
  contains pat s = true -> contains pat (a ++ s) = true.
Proof.
  intros H. induction a as [|c a IH]; [exact H|].
  simpl. rewrite IH. apply orb_true_r.
Qed.

Lemma contains_app_l (pat s b : str) :
  contains pat s = true -> contains pat (s ++ b) = true.
Proof.
  induction s as [|c s IH]; simpl.
  - intros H. apply startswith_nil in H. subst. apply contains_nil.
  - rewrite orb_true_iff. intros [H|H].
    + change (c :: s ++ b) with ((c :: s) ++ b).
      rewrite (startswith_app _ _ _ H). reflexivity.
    + rewrite (IH H). apply orb_true_r.
Qed.

Lemma contains_infix (pat a s b : str) :
  contains pat s = true -> contains pat (a ++ s ++ b) = true.
Proof. intros H. apply contains_app_r, contains_app_l, H. Qed.

Lemma before_prefix (pat s : str) : exists rest, s = before pat s ++ rest.
Proof.
  induction s as [|c s [rest IH]]; [exists []; reflexivity|].
  simpl. destruct (startswith pat (c :: s)).
  - exists (c :: s). reflexivity.
  - exists rest. simpl. congruence.
Qed.

Lemma before_first (pat s : str) :
  contains pat s = true -> exists rest, s = before pat s ++ pat ++ rest.
Proof.
  induction s as [|c s IH]; simpl.
  - intros H. apply startswith_nil in H. subst. exists []. reflexivity.
  - destruct (startswith pat (c :: s)) eqn:Hs.
    + intros _. apply startswith_iff in Hs. exact Hs.
    + simpl. intros H. destruct (IH H) as [rest Hr]. exists rest.
      simpl. congruence.
Qed.

Section NonEmptyPattern.
  Variable pat : str.
  Hypothesis pat_nonempty : pat <> [].

Lemma contains_empty : contains pat [] = false.
Proof. destruct pat; [contradiction | reflexivity]. Qed.

Lemma before_no_occurrence (s : str) : contains pat (before pat s) = false.
Proof.
  pose proof pat_nonempty as Hpat. induction s as [|c s IH]; simpl.
  - destruct pat; [contradiction | reflexivity].
  - destruct (startswith pat (c :: s)) eqn:Hs.
    + destruct pat; [contradiction | reflexivity].
    + simpl. rewrite IH, orb_false_r.
      destruct (startswith pat (c :: before pat s)) eqn:Hb; [|reflexivity].
      destruct (before_prefix pat s) as [rest Hrest].
      apply (startswith_app _ _ rest) in Hb. simpl in Hb.
      rewrite <- Hrest in Hb. congruence.
Qed.

(** The first piece of [split] and the number of its pieces. *)
Lemma split_aux_before (s : str) :
  fst (split_aux pat 0 s) = before pat s
  /\ (snd (split_aux pat 0 s) = [] <-> contains pat s = false).
Proof.
  induction s as [|c s [IH1 IH2]].
  - cbn [split_aux before fst snd]. rewrite contains_empty.
    split; [reflexivity|]. split; reflexivity.
  - cbn [split_aux before contains].
    destruct (startswith pat (c :: s)) eqn:Hs.
    + destruct (split_aux pat (length pat - 1) s) as [p ps]. simpl.
      split; [reflexivity|]. split; discriminate.
    + destruct (split_aux pat 0 s) as [p ps]. simpl in *.
      split; [congruence | exact IH2].
Qed.

Lemma split_hd (s : str) : hd [] (split pat s) = before pat s.
Proof.
  destruct (split_aux_before s) as [H _].
  unfold split. destruct (split_aux pat 0 s). exact H.
Qed.

Lemma split_several (s : str) : (1 <? length (split pat s)) = contains pat s.
Proof.
  destruct (split_aux_before s) as [_ H].
  unfold split. destruct (split_aux pat 0 s) as [p ps]. simpl in *.
  destruct ps as [|q ps].
  - symmetry. apply H. reflexivity.
  - destruct (contains pat s) eqn:Hc; [reflexivity|].
    destruct H as [_ H]. discriminate H. reflexivity.
Qed.

End NonEmptyPattern.

Lemma before_absent (pat s : str) : contains pat s = false -> before pat s = s.
Proof.
  induction s as [|c s IH]; [reflexivity|].
  simpl. intros H. apply orb_false_iff in H as [-> H].
  rewrite (IH H). reflexivity.
Qed.

Lemma before_length (pat s : str) : length (before pat s) <= length s.
Proof.
  destruct (before_prefix pat s) as [rest H].
  rewrite H at 2. rewrite length_app. lia.
Qed.

(** ** Removing a label *)

Lemma remove_absent (pat s : str) : contains pat s = false -> remove pat s = s.
Proof.
  unfold remove. induction s as [|c s IH]; [reflexivity|].
  simpl. intros H. apply orb_false_iff in H as [-> H].
  rewrite (IH H). reflexivity.
Qed.

Lemma remove_aux_length (pat s : str) : forall skip,
  length (remove_aux pat skip s) <= length s.
Proof.
  induction s as [|c s IH]; intros skip; [reflexivity|].
  simpl. destruct skip as [|k].
  - destruct (startswith pat (c :: s)).
    + specialize (IH (length pat - 1)). lia.
    + simpl. specialize (IH 0). lia.
  - specialize (IH k). lia.
Qed.

Lemma remove_shorter (pat s : str) :
  pat <> [] -> contains pat s = true -> length (remove pat s) < length s.
Proof.
  intros Hpat. unfold remove. induction s as [|c s IH]; simpl.
  - intros H. apply startswith_nil in H. contradiction.
  - destruct (startswith pat (c :: s)) eqn:Hs.
    + intros _. pose proof (remove_aux_length pat s (length pat - 1)). lia.
    + simpl. intros H. specialize (IH H). lia.
Qed.

Lemma remove_aux_skip (pat s : str) : forall skip,
  remove_aux pat skip s = remove pat (drop skip s).
Proof.
  induction s as [|c s IH]; intros skip.
  - destruct skip; reflexivity.
  - destruct skip as [|k]; [reflexivity|]. cbn [remove_aux drop]. apply IH.
Qed.

(** [remove] takes the first occurrence out and goes on after it. *)
Lemma remove_first (pat s : str) :
  pat <> [] -> contains pat s = true ->
  remove pat s
  = before pat s ++ remove pat (drop (length (before pat s) + length pat) s).
Proof.
  intros Hpat. induction s as [|c s IH].
  - intros H. apply startswith_nil in H. contradiction.
  - cbn [contains before]. unfold remove at 1. cbn [remove_aux].
    destruct (startswith pat (c :: s)) eqn:Hs.
    + intros _. rewrite remove_aux_skip. cbn [app length Nat.add].
      destruct pat as [|p pat']; [contradiction|].
      replace (length (p :: pat') - 1) with (length pat')
        by (cbn [length]; lia).
      reflexivity.
    + cbn [orb]. intros H. fold (remove pat s). rewrite (IH H).
      cbn [length Nat.add drop app]. reflexivity.
Qed.

(** ** Trimming *)

Lemma lstrip_suffix (s : str) : exists a, s = a ++ lstrip s.
Proof.
  induction s as [|c s [a IH]]; [exists []; reflexivity|].
  simpl. destruct (isspace c).
  - exists (c :: a). simpl. congruence.
  - exists []. reflexivity.
Qed.

Lemma rstrip_prefix (s : str) : exists b, s = rstrip s ++ b.
Proof.
  unfold rstrip. destruct (lstrip_suffix (rev s)) as [a H].
  exists (rev a). rewrite <- rev_app_distr, <- H, rev_involutive. reflexivity.
Qed.

Lemma strip_infix (s : str) : exists a b, s = a ++ strip s ++ b.
Proof.
  unfold strip. destruct (lstrip_suffix s) as [a Ha].
  destruct (rstrip_prefix (lstrip s)) as [b Hb].
  exists a, b. congruence.
Qed.

Lemma strip_length (s : str) : length (strip s) <= length s.
Proof.
  destruct (strip_infix s) as (a & b & H).
  rewrite H at 2. rewrite !length_app. lia.
Qed.

Lemma strip_contains (pat s : str) :
  contains pat (strip s) = true -> contains pat s = true.
Proof.
  intros H. destruct (strip_infix s) as (a & b & Hs).
  rewrite Hs. apply contains_infix, H.
Qed.

Lemma lstrip_starts_clean (s : str) : starts_clean (lstrip s) = true.
Proof.
  induction s as [|c s IH]; [reflexivity|].
  simpl. destruct (isspace c) eqn:Hc; [exact IH|].
  simpl. rewrite Hc. reflexivity.
Qed.

Lemma lstrip_fixed (s : str) : starts_clean s = true -> lstrip s = s.
Proof.
  destruct s as [|c s]; [reflexivity|].
  simpl. destruct (isspace c); [discriminate | reflexivity].
Qed.

Lemma lstrip_snoc (a : str) (c : char) :
  isspace c = false -> lstrip (a ++ [c]) = lstrip a ++ [c].
Proof.
  intros Hc. induction a as [|d a IH]; simpl.
  - rewrite Hc. reflexivity.
  - destruct (isspace d); [exact IH | reflexivity].
Qed.

Lemma rstrip_starts_clean (s : str) :
  starts_clean s = true -> starts_clean (rstrip s) = true.
Proof.
  destruct s as [|c s]; [reflexivity|].
  simpl. intros Hc. apply negb_true_iff in Hc.
  unfold rstrip. simpl. rewrite (lstrip_snoc _ _ Hc), rev_app_distr.
  simpl. rewrite Hc. reflexivity.
Qed.

Lemma rstrip_idem (s : str) : rstrip (rstrip s) = rstrip s.
Proof.
  unfold rstrip. rewrite rev_involutive.
  rewrite (lstrip_fixed _ (lstrip_starts_clean _)). reflexivity.
Qed.

Lemma strip_starts_clean (s : str) : starts_clean (strip s) = true.
Proof. apply rstrip_starts_clean, lstrip_starts_clean. Qed.

Lemma strip_idem (s : str) : strip (strip s) = strip s.
Proof.
  unfold strip at 1.
  rewrite (lstrip_fixed _ (strip_starts_clean s)).
  unfold strip. apply rstrip_idem.
Qed.

(** ** The response cleaner *)

Lemma label_nonempty : QUESTION_LABEL <> [] /\ ANSWER_LABEL <> [] /\ PARAGRAPH_BREAK <> [].
Proof. repeat split; discriminate. Qed.

Lemma before_is_first (pat s : str) (k : nat) :
  k < length (before pat s) -> startswith pat (drop k s) = false.
Proof.
  revert k. induction s as [|c s IH]; intros k; [simpl; lia|].
  cbn [before]. destruct (startswith pat (c :: s)) eqn:Hs; [simpl; lia|].
  destruct k as [|k]; [intros _; exact Hs|].
  simpl. intros Hk. apply IH. lia.
Qed.

(** The cleaner, with [split(...)[0]] read as "the part before the
    first occurrence" and [len(split(...)) > 1] as "occurs". *)
Lemma clean_response_unfold (response : str) :
  _clean_response response
  = let truncated :=
      if contains QUESTION_LABEL response
      then before QUESTION_LABEL response else response in
    let unlabelled := strip (remove ANSWER_LABEL truncated) in
    strip (if contains PARAGRAPH_BREAK unlabelled && (500 <? length unlabelled)
           then before PARAGRAPH_BREAK unlabelled
           else unlabelled).
Proof.
  destruct label_nonempty as (HQ & _ & HP).
  unfold _clean_response. cbv zeta.
  rewrite (split_hd _ HQ), (split_hd _ HP), (split_several _ HP).
  reflexivity.
Qed.

Lemma clean_response_trimmed (s : str) :
  strip (_clean_response s) = _clean_response s.
Proof. rewrite clean_response_unfold. cbv zeta. apply strip_idem. Qed.

(** A cleaned text never has both a paragraph break and more than 500
    characters. *)
Lemma clean_response_short_or_single (s : str) :
  contains PARAGRAPH_BREAK (_clean_response s)
  && (500 <? length (_clean_response s)) = false.
Proof.
  destruct label_nonempty as (_ & _ & HP).
  rewrite clean_response_unfold. cbv zeta.
  set (u := strip (remove ANSWER_LABEL _)).
  destruct (contains PARAGRAPH_BREAK u && (500 <? length u)) eqn:Hcond.
  - destruct (contains PARAGRAPH_BREAK (strip (before PARAGRAPH_BREAK u))) eqn:Hc;
      [|reflexivity].
    apply strip_contains in Hc.
    rewrite (before_no_occurrence _ HP u) in Hc. discriminate.
  - assert (Hu : strip u = u) by apply strip_idem.
    rewrite Hu. exact Hcond.
Qed.

Lemma clean_response_length (s : str) :
  length (_clean_response s)
  <= length (remove ANSWER_LABEL
               (if contains QUESTION_LABEL s then before QUESTION_LABEL s else s)).
Proof.
  rewrite clean_response_unfold. cbv zeta.
  set (t := remove ANSWER_LABEL _).
  etransitivity; [apply strip_length|].
  destruct (contains PARAGRAPH_BREAK (strip t) && _).
  - etransitivity; [apply before_length | apply strip_length].
  - apply strip_length.
Qed.

Lemma clean_response_fixed (c : str) :
  strip c = c ->
  contains PARAGRAPH_BREAK c && (500 <? length c) = false ->
  contains QUESTION_LABEL c = false ->
  contains ANSWER_LABEL c = false ->
  _clean_response c = c.
Proof.
  intros Hstrip Hpar HQ HA. rewrite clean_response_unfold. cbv zeta.
  rewrite HQ, (remove_absent _ _ HA), Hstrip, Hpar. exact Hstrip.
Qed.

Lemma clean_response_shrinks (c : str) :
  contains QUESTION_LABEL c = true \/ contains ANSWER_LABEL c = true ->
  length (_clean_response c) < length c.
Proof.
  destruct label_nonempty as (HQ & HA & _).
  intros H. pose proof (clean_response_length c) as Hlen.
  unfold remove in Hlen.
  destruct (contains QUESTION_LABEL c) eqn:Hc.
  - pose proof (remove_aux_length ANSWER_LABEL (before QUESTION_LABEL c) 0) as Hr.
    destruct (before_first _ _ Hc) as [rest Hrest].
    assert (length (before QUESTION_LABEL c) < length c).
    { rewrite Hrest at 2. rewrite !length_app. simpl. lia. }
    lia.
  - destruct H as [H|H]; [discriminate|].
    pose proof (remove_shorter _ _ HA H). unfold remove in *. lia.
Qed.

(** C3 (as amended).  The cleaner (1) cuts the response at the first
    occurrence of ["Question:"], if there is one, (2) removes every
    ["Answer:"] label and trims the result, (3) keeps only the first
    paragraph when this trimmed text has a paragraph break and more than
    500 characters, and (4) trims.  It maps
    ["It opens at 9am.\n\nQuestion: Anything else?"] to
    ["It opens at 9am."], and it maps an input of more than 500
    characters that has a paragraph break, no label and no whitespace at
    either end to its first paragraph, trimmed. *)
Theorem clean_response_steps (response : str) :
  let truncated :=
    if contains QUESTION_LABEL response
    then before QUESTION_LABEL response else response in
  let unlabelled := strip (remove ANSWER_LABEL truncated) in
  let kept :=
    if contains PARAGRAPH_BREAK unlabelled && (500 <? length unlabelled)
    then before PARAGRAPH_BREAK unlabelled else unlabelled in
  _clean_response response = strip kept
  /\ (contains QUESTION_LABEL response = true ->
      (exists rest, response = truncated ++ QUESTION_LABEL ++ rest)
      /\ forall k, k < length truncated ->
           startswith QUESTION_LABEL (drop k response) = false)
  /\ _clean_response
       (py "It opens at 9am." ++ NL ++ NL ++ py "Question: Anything else?")
     = py "It opens at 9am."
  /\ (500 < length response ->
      contains PARAGRAPH_BREAK response = true ->
      contains QUESTION_LABEL response = false ->
      contains ANSWER_LABEL response = false ->
      strip response = response ->
      _clean_response response = strip (before PARAGRAPH_BREAK response))
  /\ (forall text,
        contains ANSWER_LABEL text = false -> remove ANSWER_LABEL text = text)
  /\ (forall text,
        contains ANSWER_LABEL text = true ->
        remove ANSWER_LABEL text
        = before ANSWER_LABEL text
          ++ remove ANSWER_LABEL
               (drop (length (before ANSWER_LABEL text) + length ANSWER_LABEL)
                  text))
  /\ _clean_response (py "Answer: It opens at 9am. Answer: Bring your ID.")
     = py "It opens at 9am.  Bring your ID.".
Proof.
  cbv zeta. split; [apply clean_response_unfold|].
  split; [|split; [|split; [|split; [|split]]]].
  - intros Hc. rewrite Hc. split.
    + apply before_first, Hc.
    + intros k. apply before_is_first.
  - vm_compute. reflexivity.
  - intros Hlen Hpar HQ HA Hstrip.
    rewrite clean_response_unfold. cbv zeta.
    rewrite HQ, (remove_absent _ _ HA), Hstrip, Hpar.
    apply Nat.ltb_lt in Hlen. rewrite Hlen. reflexivity.
  - intros text. apply remove_absent.
  - intros text. apply remove_first. discriminate.
  - vm_compute. reflexivity.
Qed.

Lemma clean_response_steps_witness :
  length long_two_paragraphs = 600
  /\ _clean_response long_two_paragraphs
     = strip (before PARAGRAPH_BREAK long_two_paragraphs)
  /\ strip (before PARAGRAPH_BREAK long_two_paragraphs) = py "It opens at 9am."
  /\ remove ANSWER_LABEL (py "Answer: yes. Answer: no.")
     = before ANSWER_LABEL (py "Answer: yes. Answer: no.")
       ++ remove ANSWER_LABEL
            (drop (length (before ANSWER_LABEL (py "Answer: yes. Answer: no."))
                   + length ANSWER_LABEL)
               (py "Answer: yes. Answer: no."))
  /\ remove ANSWER_LABEL (py "Answer: yes. Answer: no.") = py " yes.  no."
  /\ _clean_response (py "Answer: yes. Answer: no.") = py "yes.  no.".
Proof.
  destruct (clean_response_steps long_two_paragraphs)
    as (_ & _ & _ & Hlong & _ & Hlabel & _).
  split; [reflexivity|]. split; [|split; [vm_compute; reflexivity|]].
  - apply Hlong; [apply Nat.ltb_lt | ..]; vm_compute; reflexivity.
  - split; [apply Hlabel; vm_compute; reflexivity|].
    split; vm_compute; reflexivity.
Defined.

(** C3 as stated fails on a 600-character input with two paragraphs
    and no whitespace at either end: once cut at ["Question:"] and
    trimmed, the text is short, and both paragraphs are kept. *)
Lemma clean_response_keeps_both_paragraphs :
  length padded_two_paragraphs = 600
  /\ split PARAGRAPH_BREAK padded_two_paragraphs
     = [py "It opens at 9am.";
        py "Bring your ID." ++ repeat 32%N 559 ++ py "Question:"]
  /\ strip padded_two_paragraphs = padded_two_paragraphs
  /\ _clean_response padded_two_paragraphs
     = py "It opens at 9am." ++ NL ++ NL ++ py "Bring your ID."
  /\ _clean_response padded_two_paragraphs <> py "It opens at 9am.".
Proof. repeat split; first [evaluate | refute]. Qed.

(** C6 (as amended).  Cleaning a cleaned text changes it exactly when
    the cleaned text still holds a ["Question:"] or an ["Answer:"]
    label; otherwise the second cleaning returns it unchanged. *)
Theorem clean_response_idempotent_iff (s : str) :
  _clean_response (_clean_response s) = _clean_response s
  <-> contains QUESTION_LABEL (_clean_response s) = false
      /\ contains ANSWER_LABEL (_clean_response s) = false.
Proof.
  split.
  - intros Hfix.
    destruct (contains QUESTION_LABEL (_clean_response s)) eqn:HQ.
    + pose proof (clean_response_shrinks (_clean_response s) (or_introl HQ)).
      rewrite Hfix in *. lia.
    + destruct (contains ANSWER_LABEL (_clean_response s)) eqn:HA; [|auto].
      pose proof (clean_response_shrinks (_clean_response s) (or_intror HA)).
      rewrite Hfix in *. lia.
  - intros [HQ HA]. apply clean_response_fixed; auto.
    + apply clean_response_trimmed.
    + apply clean_response_short_or_single.
Qed.

(** C6 as stated fails: removing the label of ["AnsAnswer:wer: 42"]
    puts a new label together, which the second cleaning removes. *)
Lemma clean_response_not_idempotent :
  _clean_response (py "AnsAnswer:wer: 42") = py "Answer: 42"
  /\ _clean_response (_clean_response (py "AnsAnswer:wer: 42")) = py "42"
  /\ _clean_response (_clean_response (py "AnsAnswer:wer: 42"))
     <> _clean_response (py "AnsAnswer:wer: 42").
Proof. repeat split; first [evaluate | refute]. Qed.
Lemma clean_response_idempotent_iff_witness :
  _clean_response
    (_clean_response
       (py "It opens at 9am." ++ NL ++ NL ++ py "Question: Anything else?"))
  = _clean_response
      (py "It opens at 9am." ++ NL ++ NL ++ py "Question: Anything else?").
Proof.
  apply clean_response_idempotent_iff. split; vm_compute; reflexivity.
Defined.

(** ** The simulated stream of the local backend *)




(** ** Streams and their concatenation *)

Lemma join_cons (sep w : str) (ws : list str) :
  join sep (w :: ws)
  = w ++ match ws with [] => [] | _ :: _ => sep ++ join sep ws end.
Proof. destruct ws; simpl; [rewrite app_nil_r|]; reflexivity. Qed.

Lemma concat_spaced (ws : list str) : concat (spaced ws) = join SPACE ws.
Proof.
  induction ws as [|w ws IH]; [reflexivity|].
  destruct ws as [|w' ws'].
  - simpl. apply app_nil_r.
  - change (spaced (w :: w' :: ws')) with ((w ++ SPACE) :: spaced (w' :: ws')).
    change (join SPACE (w :: w' :: ws'))
      with (w ++ SPACE ++ join SPACE (w' :: ws')).
    rewrite concat_cons, IH, <- app_assoc. reflexivity.
Qed.

(** On a single-spaced text, [words_aux] takes the text apart without
    losing a character. *)
Lemma words_aux_single_spaced (s : str) :
  single_spaced s = true ->
  s = fst (words_aux s)
      ++ match snd (words_aux s) with
         | [] => []
         | _ :: _ => SPACE ++ join SPACE (snd (words_aux s))
         end.
Proof.
  induction s as [|c s IH]; [reflexivity|].
  cbn [single_spaced words_aux]. intros H. apply andb_true_iff in H as [Hc Hs].
  specialize (IH Hs). destruct (isspace c) eqn:Hsp.
  - apply andb_true_iff in Hc as [Hc Hd]. apply N.eqb_eq in Hc. subst c.
    destruct s as [|d s']; [discriminate|].
    apply negb_true_iff in Hd.
    cbn [words_aux] in *. destruct (words_aux s') as [w ws].
    rewrite Hd in *. cbn [fst snd] in *.
    cbn [app]. change (SPACE ++ ?x) with (32%N :: x).
    f_equal. rewrite join_cons. exact IH.
  - destruct (words_aux s) as [w ws]. cbn [fst snd] in *.
    rewrite <- app_comm_cons. f_equal. exact IH.
Qed.

Lemma words_aux_starts (s : str) :
  starts_clean s = true -> s <> [] -> fst (words_aux s) <> [].
Proof.
  destruct s as [|c s]; [contradiction|].
  simpl. intros Hc _. apply negb_true_iff in Hc.
  destruct (words_aux s) as [w ws]. rewrite Hc. discriminate.
Qed.

Lemma join_words (s : str) :
  starts_clean s = true -> single_spaced s = true ->
  join SPACE (words s) = s.
Proof.
  intros Hstart Hsingle.
  destruct s as [|c s]; [reflexivity|].
  pose proof (words_aux_single_spaced _ Hsingle) as Hs.
  pose proof (words_aux_starts _ Hstart) as Hw.
  unfold words. destruct (words_aux (c :: s)) as [w ws]. cbn [fst snd] in *.
  destruct w as [|d w]; [exfalso; apply Hw; [discriminate | reflexivity]|].
  rewrite join_cons. symmetry. exact Hs.
Qed.

Lemma stream_chunks_text (chunks : list (list (option str))) :
  Forall (fun chunk => chunk <> []) chunks ->
  snd (stream_chunks chunks) = None
  /\ concat (fst (stream_chunks chunks)) = chunks_text chunks.
Proof.
  induction 1 as [|chunk rest Hchunk _ [IH1 IH2]]; [split; reflexivity|].
  destruct chunk as [|delta others]; [contradiction|].
  cbn [stream_chunks]. destruct (stream_chunks rest) as [fragments e].
  cbn [fst snd] in *. split; [exact IH1|].
  unfold chunks_text in *. cbn [map concat]. rewrite <- IH2.
  destruct delta as [[|c t]|]; reflexivity.
Qed.

(** C1 (as amended).  On the remote backend, when the stream delivers
    the text of the first choice of the synchronous call, the fragments
    of [generate_streaming_response] concatenate to the string
    [generate_response] returns.  On the local backend, for the same
    output of the model, they concatenate to the words of that string
    joined by single spaces, which is that string when its only
    whitespace is single spaces between words. *)
Theorem streaming_concatenation (self : LLMService) (query : str)
  (context : option str) (chat_history : option (list Message)) :
  (forall client model content,
     self = GroqService client model ->
     let chunks :=
       completions_stream client
         {| req_model := model;
            req_messages :=
              groq_messages SYSTEM_PROMPT_STREAM query context chat_history;
            req_max_tokens := 1024 |} in
     hd_error
       (completions_create client
          {| req_model := model;
             req_messages := groq_messages SYSTEM_PROMPT query context chat_history;
             req_max_tokens := 1024 |}) = Some content ->
     Forall (fun chunk => chunk <> []) chunks ->
     chunks_text chunks = content ->
     generate_response self query context chat_history = Ok content
     /\ exists fragments,
          generate_streaming_response self query context chat_history
          = (fragments, None)
          /\ concat fragments = content)
  /\ (use_local_model self = true ->
      exists response fragments,
        generate_response self query context chat_history = Ok response
        /\ generate_streaming_response self query context chat_history
           = (fragments, None)
        /\ concat fragments = join SPACE (words response)
        /\ (single_spaced response = true -> concat fragments = response)).
Proof.
  split.
  - intros client model content -> chunks Hsync Hchoices Htext. split.
    + simpl. unfold _generate_groq.
      destruct (completions_create client _) as [|first rest];
        [discriminate | simpl in Hsync; congruence].
    + destruct (stream_chunks_text chunks Hchoices) as [Hend Hcat].
      exists (fst (stream_chunks chunks)). split.
      * simpl. unfold _stream_groq. fold chunks.
        destruct (stream_chunks chunks) as [fragments e].
        simpl in *. congruence.
      * congruence.
  - destruct self as [client model | device generator]; [discriminate|].
    intros _. eexists. eexists. split; [reflexivity|].
    split; [reflexivity|].
    rewrite word_fragments_spaced, concat_spaced. split; [reflexivity|].
    intros Hsingle. apply join_words; [|exact Hsingle].
    unfold _generate_local. rewrite <- clean_response_trimmed.
    apply strip_starts_clean.
Qed.

Lemma streaming_concatenation_witness :
  (generate_response (GroqService (sample_client None) GROQ_MODEL)
     (py "When?") None None = Ok (py "It opens at 9am.")
   /\ exists fragments,
        generate_streaming_response (GroqService (sample_client None) GROQ_MODEL)
          (py "When?") None None = (fragments, None)
        /\ concat fragments = py "It opens at 9am.")
  /\ exists response fragments,
       generate_response (local_service (py " It opens soon"))
         (py "When?") None None = Ok response
       /\ generate_streaming_response (local_service (py " It opens soon"))
            (py "When?") None None = (fragments, None)
       /\ concat fragments = join SPACE (words response)
       /\ (single_spaced response = true -> concat fragments = response).
Proof.
  split.
  - apply (streaming_concatenation
             (GroqService (sample_client None) GROQ_MODEL) (py "When?") None None)
      with (client := sample_client None) (model := GROQ_MODEL).
    + reflexivity.
    + reflexivity.
    + repeat constructor; discriminate.
    + reflexivity.
  - apply (streaming_concatenation (local_service (py " It opens soon"))
             (py "When?") None None).
    reflexivity.
Defined.

(** C1 as stated fails on the local backend: the answer has a line
    break, and the fragments of the stream join its two lines with a
    space. *)
Lemma local_stream_collapses_whitespace :
  generate_response two_line_service (py "When?") None None
  = Ok (py "It opens at 9am." ++ NL ++ py "Bring your ID.")
  /\ generate_streaming_response two_line_service (py "When?") None None
     = ([py "It "; py "opens "; py "at "; py "9am. "; py "Bring ";
         py "your "; py "ID."], None)
  /\ concat (fst (generate_streaming_response two_line_service
                    (py "When?") None None))
     = py "It opens at 9am. Bring your ID."
  /\ concat (fst (generate_streaming_response two_line_service
                    (py "When?") None None))
     <> py "It opens at 9am." ++ NL ++ py "Bring your ID.".
Proof. repeat split; first [evaluate | refute]. Qed.

(** * Further properties of the generation service *)

(** ** What the cleaner guarantees *)

Lemma truncation_is_before (s : str) :
  (if contains QUESTION_LABEL s then before QUESTION_LABEL s else s)
  = before QUESTION_LABEL s.
Proof.
  destruct (contains QUESTION_LABEL s) eqn:H; [reflexivity|].
  symmetry. apply before_absent, H.
Qed.

Lemma rstrip_last (s a : str) (c : char) :
  rstrip s = a ++ [c] -> isspace c = false.
Proof.
  unfold rstrip. intros H.
  apply (f_equal (@rev char)) in H.
  rewrite rev_involutive, rev_app_distr in H. simpl in H.
  pose proof (lstrip_starts_clean (rev s)) as Hclean.
  rewrite H in Hclean. simpl in Hclean. apply negb_true_iff, Hclean.
Qed.

(** X1.  A cleaned response neither starts nor ends with a whitespace
    character. *)
Theorem clean_response_has_no_outer_whitespace (s : str) :
  (forall c rest, _clean_response s = c :: rest -> isspace c = false)
  /\ (forall front c, _clean_response s = front ++ [c] -> isspace c = false).
Proof.
  split.
  - intros c rest H. pose proof (strip_starts_clean (_clean_response s)) as Hc.
    rewrite clean_response_trimmed, H in Hc. simpl in Hc.
    apply negb_true_iff, Hc.
  - intros front c H. rewrite <- clean_response_trimmed in H.
    unfold strip in H. eapply rstrip_last, H.
Qed.

(** X2.  Cleaning never makes a response longer. *)
Theorem clean_response_never_longer (s : str) :
  length (_clean_response s) <= length s.
Proof.
  etransitivity; [apply clean_response_length|].
  rewrite truncation_is_before. unfold remove.
  etransitivity; [apply remove_aux_length | apply before_length].
Qed.

(** X3.  A cleaned response that still has a paragraph break has at
    most 500 characters: a longer one is a single paragraph. *)
Theorem clean_response_long_is_single_paragraph (s : str) :
  contains PARAGRAPH_BREAK (_clean_response s) = true ->
  length (_clean_response s) <= 500.
Proof.
  intros H. pose proof (clean_response_short_or_single s) as Hs.
  rewrite H in Hs. simpl in Hs. apply Nat.ltb_ge in Hs. exact Hs.
Qed.

(** X4.  The cleaned response depends only on what precedes the first
    ["Question:"]: two responses that agree up to there are cleaned to
    the same text, and a response that begins with ["Question:"] is
    cleaned to the empty string. *)
Theorem clean_response_ignores_continuation (s t : str) :
  before QUESTION_LABEL s = before QUESTION_LABEL t ->
  _clean_response s = _clean_response t
  /\ forall rest, _clean_response (QUESTION_LABEL ++ rest) = [].
Proof.
  intros H. split.
  - rewrite !clean_response_unfold. cbv zeta.
    rewrite !truncation_is_before, H. reflexivity.
  - intros rest. rewrite clean_response_unfold. cbv zeta.
    rewrite truncation_is_before.
    assert (Hb : before QUESTION_LABEL (QUESTION_LABEL ++ rest) = []).
    { change (QUESTION_LABEL ++ rest) with (81%N :: (skipn 1 QUESTION_LABEL ++ rest)).
      cbn [before].
      replace (startswith QUESTION_LABEL (81%N :: drop 1 QUESTION_LABEL ++ rest))
        with true; [reflexivity|].
      symmetry. apply startswith_iff. exists rest. reflexivity. }
    rewrite Hb. reflexivity.
Qed.

(** X5.  A response without ["Question:"] and without ["Answer:"]
    that, once trimmed, has no paragraph break or at most 500
    characters, is only trimmed. *)
Theorem clean_response_plain_text (s : str) :
  contains QUESTION_LABEL s = false ->
  contains ANSWER_LABEL s = false ->
  contains PARAGRAPH_BREAK (strip s) = false \/ length (strip s) <= 500 ->
  _clean_response s = strip s.
Proof.
  intros HQ HA Hpar. rewrite clean_response_unfold. cbv zeta.
  rewrite HQ, (remove_absent _ _ HA).
  replace (contains PARAGRAPH_BREAK (strip s) && (500 <? length (strip s)))
    with false; [apply strip_idem|].
  symmetry. destruct Hpar as [-> | Hlen]; [reflexivity|].
  apply Nat.ltb_ge in Hlen. rewrite Hlen. apply andb_false_r.
Qed.
(** ** What the simulated stream guarantees *)

Lemma words_aux_words (s : str) :
  forallb (fun c => negb (isspace c)) (fst (words_aux s)) = true
  /\ Forall (fun w => is_word w = true) (snd (words_aux s)).
Proof.
  induction s as [|c s [IH1 IH2]]; [split; [reflexivity | constructor]|].
  cbn [words_aux]. destruct (words_aux s) as [w ws]. cbn [fst snd] in *.
  destruct (isspace c) eqn:Hc; cbn [fst snd].
  - split; [reflexivity|]. destruct w as [|d w]; [exact IH2|].
    constructor; [exact IH1 | exact IH2].
  - split; [|exact IH2]. simpl. rewrite Hc, IH1. reflexivity.
Qed.

Lemma words_are_words (s : str) : Forall (fun w => is_word w = true) (words s).
Proof.
  destruct (words_aux_words s) as [H1 H2]. unfold words.
  destruct (words_aux s) as [w ws]. cbn [fst snd] in *.
  destruct w as [|d w]; [exact H2|]. constructor; [exact H1 | exact H2].
Qed.

Lemma words_aux_space (s : str) : words_aux (32%N :: s) = ([], words s).
Proof. unfold words. cbn [words_aux]. destruct (words_aux s). reflexivity. Qed.

Lemma words_aux_app_word (w s : str) :
  forallb (fun c => negb (isspace c)) w = true ->
  words_aux (w ++ s) = (w ++ fst (words_aux s), snd (words_aux s)).
Proof.
  induction w as [|c w IH]; simpl.
  - intros _. destruct (words_aux s). reflexivity.
  - intros H. apply andb_true_iff in H as [Hc Hw].
    rewrite (IH Hw). apply negb_true_iff in Hc. rewrite Hc. reflexivity.
Qed.

Lemma is_word_free (w : str) :
  is_word w = true ->
  w <> [] /\ forallb (fun c => negb (isspace c)) w = true.
Proof. destruct w; [discriminate|]. intros H. split; [discriminate | exact H]. Qed.

Lemma words_join (ws : list str) :
  Forall (fun w => is_word w = true) ws -> words (join SPACE ws) = ws.
Proof.
  induction 1 as [|w ws Hw Hws IH]; [reflexivity|].
  apply is_word_free in Hw as [Hne Hfree].
  rewrite join_cons. unfold words.
  rewrite (words_aux_app_word _ _ Hfree).
  destruct ws as [|w' ws'].
  - simpl. rewrite app_nil_r. destruct w; [contradiction | reflexivity].
  - change (SPACE ++ ?x) with (32%N :: x). rewrite words_aux_space.
    cbn [fst snd]. rewrite app_nil_r, IH.
    destruct w; [contradiction | reflexivity].
Qed.

Lemma words_all_space (s : str) :
  forallb isspace s = true -> words s = [].
Proof.
  intros H. assert (Haux : words_aux s = ([], [])).
  { induction s as [|c s IH]; [reflexivity|].
    simpl in H. apply andb_true_iff in H as [Hc Hs].
    cbn [words_aux]. rewrite (IH Hs), Hc. reflexivity. }
  unfold words. rewrite Haux. reflexivity.
Qed.

Lemma spaced_length (ws : list str) : length (spaced ws) = length ws.
Proof.
  induction ws as [|w [|w' ws'] IH]; [reflexivity | reflexivity|].
  change (spaced (w :: w' :: ws')) with ((w ++ SPACE) :: spaced (w' :: ws')).
  simpl length in *. congruence.
Qed.

Lemma spaced_shape (ws : list str) :
  Forall (fun w => is_word w = true) ws ->
  Forall (fun fragment =>
            exists w, is_word w = true
                      /\ (fragment = w \/ fragment = w ++ SPACE)) (spaced ws).
Proof.
  induction 1 as [|w ws Hw Hws IH]; [constructor|].
  destruct ws as [|w' ws'].
  - constructor; [eauto | constructor].
  - change (spaced (w :: w' :: ws')) with ((w ++ SPACE) :: spaced (w' :: ws')).
    constructor; [eauto | exact IH].
Qed.

(** X6.  On the local backend the stream yields one fragment per word
    of the synchronous response; every fragment is a non-empty run of
    characters without whitespace, followed by one space at most. *)
Theorem local_stream_fragments (device : str) (generator : Generator)
  (query : str) (context : option str) (chat_history : option (list Message)) :
  let self := LocalService device generator in
  let response := _generate_local self generator query context chat_history in
  exists fragments,
    generate_streaming_response self query context chat_history
    = (fragments, None)
    /\ length fragments = length (words response)
    /\ Forall (fun fragment =>
                 exists w, is_word w = true
                           /\ (fragment = w \/ fragment = w ++ SPACE))
              fragments.
Proof.
  cbv zeta. eexists. split; [reflexivity|].
  rewrite word_fragments_spaced. split.
  - apply spaced_length.
  - apply spaced_shape, words_are_words.
Qed.

(** X7.  On the local backend the stream yields no fragment exactly
    when the synchronous response is the empty string. *)
Theorem local_stream_empty_iff (device : str) (generator : Generator)
  (query : str) (context : option str) (chat_history : option (list Message)) :
  let self := LocalService device generator in
  fst (generate_streaming_response self query context chat_history) = []
  <-> generate_response self query context chat_history = Ok [].
Proof.
  cbv zeta. cbn [generate_streaming_response generate_response fst].
  rewrite word_fragments_spaced.
  set (response := _generate_local _ _ _ _ _).
  assert (Hclean : starts_clean response = true).
  { unfold response, _generate_local. rewrite <- clean_response_trimmed.
    apply strip_starts_clean. }
  split.
  - intros H. destruct response as [|c r]; [reflexivity|].
    pose proof (words_aux_starts _ Hclean) as Hw.
    apply (f_equal (@length str)) in H. rewrite spaced_length in H.
    unfold words in H. destruct (words_aux (c :: r)) as [w ws].
    cbn [fst] in Hw. destruct w; [exfalso; apply Hw; [discriminate|reflexivity]|].
    discriminate.
  - intros H. injection H as ->. reflexivity.
Qed.

(** X8.  On the local backend the stream loses no word and adds none:
    the text put together from the fragments splits into the same words,
    in the same order, as the synchronous response. *)
Theorem local_stream_keeps_words (device : str) (generator : Generator)
  (query : str) (context : option str) (chat_history : option (list Message)) :
  let self := LocalService device generator in
  words (concat (fst (generate_streaming_response self query context chat_history)))
  = words (_generate_local self generator query context chat_history).
Proof.
  cbv zeta. cbn [generate_streaming_response fst].
  rewrite word_fragments_spaced, concat_spaced.
  apply words_join, words_are_words.
Qed.

(** ** What the remote stream guarantees *)

Lemma stream_chunks_nonempty (chunks : list (list (option str))) :
  Forall (fun fragment => fragment <> []) (fst (stream_chunks chunks)).
Proof.
  induction chunks as [|chunk rest IH]; [constructor|].
  cbn [stream_chunks]. destruct chunk as [|delta others]; [constructor|].
  destruct (stream_chunks rest) as [fragments e]. cbn [fst] in *.
  destruct delta as [[|c t]|]; try exact IH.
  constructor; [discriminate | exact IH].
Qed.

Lemma stream_chunks_cut (good rest : list (list (option str))) :
  Forall (fun chunk => chunk <> []) good ->
  stream_chunks (good ++ [] :: rest)
  = (fst (stream_chunks good), Some IndexError).
Proof.
  induction 1 as [|chunk good Hchunk _ IH]; [reflexivity|].
  destruct chunk as [|delta others]; [contradiction|].
  cbn [app stream_chunks]. rewrite IH.
  destruct (stream_chunks good) as [fragments e]. reflexivity.
Qed.

(** X9.  The remote stream never yields an empty fragment: a delta
    without text, or with an empty text, is passed over. *)
Theorem remote_stream_fragments (client : GroqClient) (model query : str)
  (context : option str) (chat_history : option (list Message)) :
  Forall (fun fragment => fragment <> [])
    (fst (_stream_groq client model query context chat_history)).
Proof. unfold _stream_groq. apply stream_chunks_nonempty. Qed.

(** X10.  When a chunk of the remote stream has no choice, the stream
    ends there with [IndexError]: the fragments of the chunks before it
    have been yielded, their text is the text of those chunks, and the
    chunks after it are not read. *)
Theorem remote_stream_stops_at_empty_chunk (client : GroqClient)
  (model query : str) (context : option str)
  (chat_history : option (list Message))
  (good rest : list (list (option str))) :
  completions_stream client
    {| req_model := model;
       req_messages :=
         groq_messages SYSTEM_PROMPT_STREAM query context chat_history;
       req_max_tokens := 1024 |} = good ++ [] :: rest ->
  Forall (fun chunk => chunk <> []) good ->
  exists fragments,
    generate_streaming_response (GroqService client model) query context
      chat_history = (fragments, Some IndexError)
    /\ concat fragments = chunks_text good.
Proof.
  intros Hchunks Hgood. exists (fst (stream_chunks good)). split.
  - cbn [generate_streaming_response]. unfold _stream_groq.
    rewrite Hchunks. apply stream_chunks_cut, Hgood.
  - apply stream_chunks_text, Hgood.
Qed.

(** ** How much of the history and of the context reaches the model *)



Lemma last_n_app {A} (n : nat) (old l : list A) :
  n <= length l -> last_n n (old ++ l) = last_n n l.
Proof.
  intros Hn. unfold last_n. rewrite length_app.
  replace (length old + length l - n) with (length old + (length l - n)) by lia.
  rewrite <- drop_drop, drop_app_length. reflexivity.
Qed.

(** X13.  Turns older than the ones kept have no influence at all: with
    at least five turns on the remote backend, or three on the local
    one, putting older turns in front of the history changes neither the
    synchronous result nor the stream. *)
Theorem older_turns_are_ignored (self : LLMService) (query : str)
  (context : option str) (older history : list Message) :
  (if use_local_model self then 3 else 5) <= length history ->
  generate_response self query context (Some (older ++ history))
  = generate_response self query context (Some history)
  /\ generate_streaming_response self query context (Some (older ++ history))
     = generate_streaming_response self query context (Some history).
Proof.
  intros Hlen. destruct self as [client model | device generator];
    cbn [use_local_model] in Hlen.
  - cbn [generate_response generate_streaming_response].
    unfold _generate_groq, _stream_groq.
    rewrite !groq_messages_shape. cbn [or_empty].
    rewrite (last_n_app 5 older history Hlen). split; reflexivity.
  - cbn [generate_response generate_streaming_response].
    unfold _generate_local, _build_local_prompt.
    rewrite !prompt_parts_shape. cbn [or_empty].
    rewrite (last_n_app 3 older history Hlen). split; reflexivity.
Qed.

(** X14.  An absent context and an empty one, an absent history and an
    empty one, are the same to the service: the synchronous result and
    the stream do not tell them apart. *)
Theorem absent_is_empty (self : LLMService) (query : str)
  (context : option str) (chat_history : option (list Message)) :
  (generate_response self query (Some []) chat_history
   = generate_response self query None chat_history
   /\ generate_streaming_response self query (Some []) chat_history
      = generate_streaming_response self query None chat_history)
  /\ (generate_response self query context (Some [])
      = generate_response self query context None
      /\ generate_streaming_response self query context (Some [])
         = generate_streaming_response self query context None).
Proof.
  destruct self as [client model | device generator];
    cbn [generate_response generate_streaming_response];
    unfold _generate_groq, _stream_groq, _generate_local, _build_local_prompt;
    rewrite ?groq_messages_shape, ?prompt_parts_shape;
    repeat split; reflexivity.
Qed.

Lemma mk_message_inj (role a b : str) :
  mk_message role a = mk_message role b -> a = b.
Proof.
  intros H. apply (f_equal (fun m : Message => m !! py "content")) in H.
  rewrite !mk_message_content in H. congruence.
Qed.


(** X16.  The local prompt does not escape line breaks: one user turn
    whose content holds a line break followed by ["Answer: "] gives the
    very prompt of a user turn followed by an assistant turn. *)
Theorem local_prompt_is_ambiguous (self : LLMService) (query a b : str)
  (context : option str) :
  _build_local_prompt self query context
    (Some [mk_message (py "user") (a ++ NL ++ py "Answer: " ++ b)])
  = _build_local_prompt self query context
      (Some [mk_message (py "user") a; mk_message (py "assistant") b]).
Proof.
  unfold _build_local_prompt. rewrite !prompt_parts_shape.
  cbn [or_empty]. rewrite !last_n_short by (cbn [length]; lia).
  assert (Hu : forall x, render_turn (mk_message (py "user") x) = py "Question: " ++ x).
  { intros x. unfold render_turn, dict_get.
    rewrite mk_message_role, mk_message_content. reflexivity. }
  assert (Ha : render_turn (mk_message (py "assistant") b) = py "Answer: " ++ b).
  { unfold render_turn, dict_get.
    rewrite mk_message_role, mk_message_content. reflexivity. }
  cbn [map]. rewrite !Hu, Ha.
  generalize (py "Question: " ++ query) as last_question. intros last_question.
  assert (Hjoin : forall pre x y rest,
            join NL (pre ++ (x ++ NL ++ y) :: rest)
            = join NL (pre ++ x :: y :: rest)).
  { induction pre as [|p pre IH]; intros x y rest.
    - cbn [app]. rewrite !join_cons. rewrite <- !app_assoc. reflexivity.
    - cbn [app]. rewrite !join_cons, IH.
      destruct pre; reflexivity. }
  cbn [app].
  rewrite (app_assoc (py "Question: ") a (NL ++ py "Answer: " ++ b)).
  apply Hjoin.
Qed.

(** ** Which backend the factory builds *)

Lemma lower_char_letter (c x : char) :
  (97 <= x <= 122)%N ->
  lower_char c = x <-> c = x \/ c = (x - 32)%N.
Proof.
  intros Hx. unfold lower_char.
  destruct (N.leb_spec 65 c); destruct (N.leb_spec c 90); simpl; lia.
Qed.

(** X17.  Local mode is requested exactly when [USE_LOCAL_MODEL] is set
    to the four letters of "true", each in either case; an unset
    variable and any other value, ["1"] or ["yes"] for instance, select
    the remote backend. *)
Theorem use_local_flag (w : World) :
  env_use_local w = true
  <-> exists a b c d,
        environ w !! py "USE_LOCAL_MODEL" = Some [a; b; c; d]
        /\ (a = 116 \/ a = 84)%N /\ (b = 114 \/ b = 82)%N
        /\ (c = 117 \/ c = 85)%N /\ (d = 101 \/ d = 69)%N.
Proof.
  unfold env_use_local, getenv_default, str_eqb.
  rewrite bool_decide_eq_true.
  change (py "true") with [116; 114; 117; 101]%N.
  destruct (environ w !! py "USE_LOCAL_MODEL") as [v|] eqn:Hv.
  - split.
    + intros H. destruct v as [|a [|b [|c [|d [|x v]]]]]; try discriminate.
      injection H as Ha Hb Hc Hd.
      exists a, b, c, d. split; [reflexivity|].
      apply lower_char_letter in Ha; [|lia]. apply lower_char_letter in Hb; [|lia].
      apply lower_char_letter in Hc; [|lia]. apply lower_char_letter in Hd; [|lia].
      auto.
    + intros (a & b & c & d & H & Ha & Hb & Hc & Hd). injection H as ->.
      cbn [lower map]. f_equal; [|f_equal; [|f_equal; [|f_equal]]];
        (apply lower_char_letter; [lia | assumption]).
  - split; [intros H; vm_compute in H; discriminate|].
    intros (a & b & c & d & H & _). discriminate.
Qed.

Lemma init_local_resolved (w : World) :
  _init_local_model w (Some (env_local_model_path w))
  = if negb (path_exists w (env_local_model_path w))
    then Raise (ValueError (py "Local model not found at "
                            ++ env_local_model_path w))
    else
      match load_pipeline w (env_local_model_path w)
              (if cuda_is_available w then py "cuda" else py "cpu") with
      | Ok generator =>
          Ok (LocalService (if cuda_is_available w then py "cuda" else py "cpu")
                generator)
      | Raise e => Raise e
      end.
Proof.
  unfold _init_local_model.
  assert (Hsame :
    (if truthy_str (Some (env_local_model_path w))
     then or_empty (Some (env_local_model_path w))
     else getenv_default w (py "LOCAL_MODEL_PATH") DEFAULT_MODEL_PATH)
    = env_local_model_path w).
  { destruct (env_local_model_path w) eqn:E; simpl; [exact E | reflexivity]. }
  rewrite Hsame. reflexivity.
Qed.

(** X18.  The factory returns a local service exactly when local mode
    is requested, the model path exists and the pipeline loads; the
    service then runs on ["cuda"] if CUDA is available and on ["cpu"]
    otherwise. *)
Theorem create_llm_service_local_iff (w : World) (service : LLMService) :
  let path := env_local_model_path w in
  let device := if cuda_is_available w then py "cuda" else py "cpu" in
  (create_llm_service w = Ok service /\ use_local_model service = true)
  <-> env_use_local w = true
      /\ path_exists w path = true
      /\ exists generator,
           load_pipeline w path device = Ok generator
           /\ service = LocalService device generator.
Proof.
  cbv zeta. unfold create_llm_service, LLMService_init.
  destruct (env_use_local w) eqn:Hlocal.
  - rewrite init_local_resolved.
    destruct (path_exists w (env_local_model_path w)) eqn:Hpath; cbn [negb].
    + destruct (load_pipeline w _ _) as [generator | e] eqn:Hload.
      * split.
        -- intros [H _]. injection H as <-. eauto.
        -- intros (_ & _ & g & Hg & ->). injection Hg as ->. auto.
      * split.
        -- intros [H Hl]. unfold _init_groq in H.
           destruct (Groq w _); [|discriminate].
           injection H as <-. discriminate.
        -- intros (_ & _ & g & Hg & _). discriminate.
    + split.
      * intros [H Hl]. unfold _init_groq in H.
        destruct (Groq w _); [|discriminate].
        injection H as <-. discriminate.
      * intros (_ & H & _). discriminate.
  - split.
    + intros [H Hl]. unfold _init_groq in H.
      destruct (Groq w _) as [client | e]; simpl in H; [|discriminate].
      injection H as <-. discriminate.
    + intros (H & _). discriminate.
Qed.

(** X19.  Whenever the factory does not build a local service (remote
    mode requested, model path missing, or a failure while the pipeline
    loads), it returns what the construction of the remote service
    returns: no error of the local initialisation reaches the caller,
    whatever its cause, and an error of the remote client constructor
    always does. *)
Theorem create_llm_service_remote_cases (w : World) :
  env_use_local w = false
  \/ path_exists w (env_local_model_path w) = false
  \/ (exists e,
        load_pipeline w (env_local_model_path w)
          (if cuda_is_available w then py "cuda" else py "cpu") = Raise e) ->
  create_llm_service w = _init_groq w
  /\ (forall e, Groq w (getenv w (py "GROQ_API_KEY")) = Raise e ->
        create_llm_service w = Raise e).
Proof.
  intros Hcase.
  assert (H : create_llm_service w = _init_groq w).
  { unfold create_llm_service, LLMService_init.
    destruct (env_use_local w) eqn:Hlocal.
    - rewrite init_local_resolved.
      destruct (path_exists w (env_local_model_path w)) eqn:Hpath; cbn [negb];
        [|reflexivity].
      destruct Hcase as [Hc | [Hc | [e Hc]]]; try discriminate.
      rewrite Hc. reflexivity.
    - destruct (_init_groq w); reflexivity. }
  split; [exact H|]. intros e He. rewrite H. unfold _init_groq.
  rewrite He. reflexivity.
Qed.

(** ** Degenerate output of the local pipeline *)

Lemma clean_response_empty : _clean_response [] = [].
Proof. reflexivity. Qed.

(** X20.  When the text the local pipeline returns is not longer than
    the prompt, nothing is left after the prompt is cut off: the
    synchronous response is the empty string and the stream yields no
    fragment. *)
Theorem local_generation_without_continuation (device : str)
  (generator : Generator) (query : str) (context : option str)
  (chat_history : option (list Message)) :
  let self := LocalService device generator in
  let prompt := _build_local_prompt self query context chat_history in
  length (generator prompt) <= length prompt ->
  generate_response self query context chat_history = Ok []
  /\ generate_streaming_response self query context chat_history = ([], None).
Proof.
  cbv zeta. intros Hlen.
  assert (H : _generate_local (LocalService device generator) generator query
                context chat_history = []).
  { unfold _generate_local. rewrite (drop_ge _ _ Hlen). reflexivity. }
  cbn [generate_response generate_streaming_response]. rewrite H.
  split; reflexivity.
Qed.

(** * Properties of the HTTP layer *)

(** ** The chat endpoints *)

(** How the common first lines of the chat endpoints end. *)
Lemma chat_inputs_cases (deps : Collaborators) (request : ChatRequestModel) :
  (exists chat_history context,
     chat_inputs deps request
     = (Done (chat_session_id deps request, chat_history, context), [])
     /\ (if truthy_str (request_session_id request)
         then get_conversation_history deps (chat_session_id deps request)
              = Ok chat_history
         else chat_history = [])
     /\ (if request_use_rag request
         then get_context deps (request_query request) 3 = Ok context
         else context = None))
  \/ (exists e,
        chat_inputs deps request = (Failed (PyExn e), [])
        /\ ((truthy_str (request_session_id request) = true
             /\ get_conversation_history deps (chat_session_id deps request)
                = Raise e)
            \/ (request_use_rag request = true
                /\ get_context deps (request_query request) 3 = Raise e))).
Proof.
  unfold chat_inputs.
  destruct (truthy_str (request_session_id request)) eqn:Hs.
  - destruct (get_conversation_history deps _) as [history | e] eqn:Hh;
      cbn [call ret bind].
    + destruct (request_use_rag request) eqn:Hr.
      * destruct (get_context deps _ 3) as [context | e] eqn:Hc;
          cbn [call ret bind app].
        -- left. exists history, context. auto.
        -- right. exists e. auto.
      * cbn [call ret bind app]. left. exists history, None. auto.
    + right. exists e. auto.
  - cbn [call ret bind]. destruct (request_use_rag request) eqn:Hr.
    + destruct (get_context deps _ 3) as [context | e] eqn:Hc;
        cbn [call ret bind app].
      * left. exists [], context. auto.
      * right. exists e. auto.
    + cbn [call ret bind app]. left. exists [], None. auto.
Qed.

Lemma fold_left_concat (fragments : list str) : forall start,
  fold_left (fun full_response chunk => full_response ++ chunk) fragments start
  = start ++ concat fragments.
Proof.
  induction fragments as [|f fragments IH]; intros start; simpl.
  - symmetry. apply app_nil_r.
  - rewrite IH, <- app_assoc. reflexivity.
Qed.

(** What [chat] does once its inputs are there. *)
Lemma chat_after_inputs (deps : Collaborators) (llm_service : LLMService)
  (request : ChatRequestModel) (chat_history : list Message)
  (context : option str) :
  chat_inputs deps request
  = (Done (chat_session_id deps request, chat_history, context), []) ->
  chat deps llm_service request
  = match generate_response llm_service (request_query request) context
            (Some chat_history) with
    | Raise e => (HTTPException 500 (exn_str e), [])
    | Ok response =>
        let saved :=
          {| saved_session_id := chat_session_id deps request;
             saved_user_message := request_query request;
             saved_bot_response := response;
             saved_context_used := context |} in
        match save_conversation deps saved with
        | Ok _ =>
            (Reply {| reply_response := response;
                      reply_context_used :=
                        if request_use_rag request then context else None;
                      reply_session_id := chat_session_id deps request |},
             [saved])
        | Raise e => (HTTPException 500 (exn_str e), [saved])
        end
    end.
Proof.
  intros Hin. unfold chat. rewrite Hin. cbn [bind].
  destruct (generate_response llm_service _ _ _) as [response | e];
    cbn [call ret bind except_500 raised_str app]; [|reflexivity].
  unfold save. destruct (save_conversation deps _) as [u | e];
    cbn [bind ret except_500 raised_str app]; reflexivity.
Qed.

Lemma chat_without_inputs (deps : Collaborators) (llm_service : LLMService)
  (request : ChatRequestModel) (e : exn) :
  chat_inputs deps request = (Failed (PyExn e), []) ->
  chat deps llm_service request = (HTTPException 500 (exn_str e), []).
Proof. intros Hin. unfold chat. rewrite Hin. reflexivity. Qed.

Lemma chat_inputs_done (deps : Collaborators) (request : ChatRequestModel)
  (chat_history : list Message) (context : option str) :
  (if truthy_str (request_session_id request)
   then get_conversation_history deps (chat_session_id deps request)
        = Ok chat_history
   else chat_history = []) ->
  (if request_use_rag request
   then get_context deps (request_query request) 3 = Ok context
   else context = None) ->
  chat_inputs deps request
  = (Done (chat_session_id deps request, chat_history, context), []).
Proof.
  unfold chat_inputs.
  destruct (truthy_str (request_session_id request));
    destruct (request_use_rag request);
    intros Hh Hc; rewrite ?Hh, ?Hc; subst; reflexivity.
Qed.

(** X21.  [POST /chat] answers every failure with status 500 and the
    text of the exception: a failure of the conversation store, of the
    retrieval, of the generation, each before anything is saved, and a
    failure of [save_conversation] itself.  It never answers an error
    with another status, and an error reply means that no conversation
    was saved, unless the failure is the one of [save_conversation]. *)
Theorem chat_errors (deps : Collaborators) (llm_service : LLMService)
  (request : ChatRequestModel) :
  let session_id := chat_session_id deps request in
  let stored := fun chat_history =>
    if truthy_str (request_session_id request)
    then get_conversation_history deps session_id = Ok chat_history
    else chat_history = [] in
  let retrieved := fun context =>
    if request_use_rag request
    then get_context deps (request_query request) 3 = Ok context
    else context = None in
  (forall e,
     truthy_str (request_session_id request) = true ->
     get_conversation_history deps session_id = Raise e ->
     chat deps llm_service request = (HTTPException 500 (exn_str e), []))
  /\ (forall chat_history e,
        stored chat_history ->
        request_use_rag request = true ->
        get_context deps (request_query request) 3 = Raise e ->
        chat deps llm_service request = (HTTPException 500 (exn_str e), []))
  /\ (forall chat_history context e,
        stored chat_history -> retrieved context ->
        generate_response llm_service (request_query request) context
          (Some chat_history) = Raise e ->
        chat deps llm_service request = (HTTPException 500 (exn_str e), []))
  /\ (forall chat_history context response e,
        stored chat_history -> retrieved context ->
        generate_response llm_service (request_query request) context
          (Some chat_history) = Ok response ->
        save_conversation deps
          {| saved_session_id := session_id;
             saved_user_message := request_query request;
             saved_bot_response := response;
             saved_context_used := context |} = Raise e ->
        chat deps llm_service request
        = (HTTPException 500 (exn_str e),
           [{| saved_session_id := session_id;
               saved_user_message := request_query request;
               saved_bot_response := response;
               saved_context_used := context |}]))
  /\ (forall status_code detail,
        fst (chat deps llm_service request)
        = HTTPException status_code detail ->
        status_code = 500%Z
        /\ (snd (chat deps llm_service request) = []
            \/ exists saved e,
                 snd (chat deps llm_service request) = [saved]
                 /\ save_conversation deps saved = Raise e
                 /\ detail = exn_str e)).
Proof.
  cbv zeta. split; [|split; [|split; [|split]]].
  - intros e Hs Hh. apply chat_without_inputs.
    unfold chat_inputs. rewrite Hs, Hh. reflexivity.
  - intros h e Hh Hr Hc. apply chat_without_inputs.
    unfold chat_inputs. rewrite Hr, Hc.
    destruct (truthy_str (request_session_id request));
      [rewrite Hh|]; reflexivity.
  - intros h c e Hh Hc Hgen.
    rewrite (chat_after_inputs _ _ _ _ _ (chat_inputs_done _ _ _ _ Hh Hc)), Hgen.
    reflexivity.
  - intros h c response e Hh Hc Hgen Hsave.
    rewrite (chat_after_inputs _ _ _ _ _ (chat_inputs_done _ _ _ _ Hh Hc)), Hgen.
    cbv zeta. rewrite Hsave. reflexivity.
  - intros status_code detail.
    destruct (chat_inputs_cases deps request)
      as [(history & context & Hin & _) | (e & Hin & _)].
    + rewrite (chat_after_inputs _ _ _ _ _ Hin).
      destruct (generate_response llm_service _ _ _) as [response | e].
      * cbv zeta. destruct (save_conversation deps _) as [u | e] eqn:Hsave;
          cbn [fst snd]; intros H; [discriminate|].
        injection H as <- <-. split; [reflexivity|]. right. eauto.
      * cbn [fst snd]. intros H. injection H as <- <-. auto.
    + rewrite (chat_without_inputs _ _ _ _ Hin). cbn [fst snd].
      intros H. injection H as <- <-. auto.
Qed.

(** X22.  When [POST /chat] replies, the reply holds the text the
    generation service returned for the query, the context the retrieval
    returned (none without retrieval) and the history the store returned
    for the session (empty without a session); [save_conversation] has
    been called once, with the session of the reply, the query and
    exactly that text. *)
Theorem chat_reply (deps : Collaborators) (llm_service : LLMService)
  (request : ChatRequestModel) (reply : ChatResponse) :
  fst (chat deps llm_service request) = Reply reply ->
  exists chat_history context,
    (if truthy_str (request_session_id request)
     then get_conversation_history deps (chat_session_id deps request)
          = Ok chat_history
     else chat_history = [])
    /\ (if request_use_rag request
        then get_context deps (request_query request) 3 = Ok context
        else context = None)
    /\ generate_response llm_service (request_query request) context
         (Some chat_history) = Ok (reply_response reply)
    /\ reply_context_used reply = context
    /\ reply_session_id reply = chat_session_id deps request
    /\ snd (chat deps llm_service request)
       = [{| saved_session_id := reply_session_id reply;
             saved_user_message := request_query request;
             saved_bot_response := reply_response reply;
             saved_context_used := context |}].
Proof.
  destruct (chat_inputs_cases deps request)
    as [(history & context & Hin & Hh & Hctx) | (e & Hin & _)].
  - rewrite (chat_after_inputs _ _ _ _ _ Hin).
    destruct (generate_response llm_service _ _ _) as [response | e] eqn:Hgen;
      [|discriminate].
    cbv zeta. destruct (save_conversation deps _) as [u | e] eqn:Hsave;
      cbn [fst snd]; intros H; [|discriminate].
    injection H as <-. exists history, context. cbn.
    split; [exact Hh|]. split; [exact Hctx|].
    repeat split; try assumption.
    destruct (request_use_rag request); [reflexivity | congruence].
  - rewrite (chat_without_inputs _ _ _ _ Hin). discriminate.
Qed.

Lemma chat_inputs_without_session (deps : Collaborators)
  (request : ChatRequestModel) history :
  truthy_str (request_session_id request) = false ->
  chat_inputs (with_history deps history) request = chat_inputs deps request.
Proof. intros H. unfold chat_inputs, chat_session_id. rewrite H. reflexivity. Qed.

Lemma chat_inputs_without_rag (deps : Collaborators)
  (request : ChatRequestModel) retrieval :
  request_use_rag request = false ->
  chat_inputs (with_context deps retrieval) request = chat_inputs deps request.
Proof. intros H. unfold chat_inputs. rewrite H. reflexivity. Qed.

(** X23.  A request without a session id, or with an empty one, never
    reads the conversation store: both chat endpoints answer and save
    the same whatever the store would return, the session is a fresh
    UUID and the model is given an empty history. *)
Theorem chat_without_session (deps : Collaborators) (llm_service : LLMService)
  (request : ChatRequestModel) (history : str -> result (list Message)) :
  truthy_str (request_session_id request) = false ->
  chat (with_history deps history) llm_service request
  = chat deps llm_service request
  /\ chat_stream (with_history deps history) llm_service request
     = chat_stream deps llm_service request
  /\ forall reply,
       fst (chat deps llm_service request) = Reply reply ->
       reply_session_id reply = uuid4 deps
       /\ generate_response llm_service (request_query request)
            (reply_context_used reply) (Some [])
          = Ok (reply_response reply).
Proof.
  intros Hs. split; [|split].
  - unfold chat. rewrite (chat_inputs_without_session _ _ _ Hs). reflexivity.
  - unfold chat_stream. rewrite (chat_inputs_without_session _ _ _ Hs).
    reflexivity.
  - intros reply.
    destruct (chat_inputs_cases deps request)
      as [(h & context & Hin & Hh & Hctx) | (e & Hin & _)].
    + rewrite Hs in Hh. subst h.
      rewrite (chat_after_inputs _ _ _ _ _ Hin).
      destruct (generate_response llm_service _ _ _) as [response | e] eqn:Hgen;
        [|discriminate].
      cbv zeta. destruct (save_conversation deps _); cbn [fst];
        intros H; [|discriminate].
      injection H as <-. cbn. unfold chat_session_id. rewrite Hs.
      split; [reflexivity|].
      destruct (request_use_rag request); [exact Hgen | congruence].
    + rewrite (chat_without_inputs _ _ _ _ Hin). discriminate.
Qed.

(** X24.  A request that does not ask for retrieval never calls the
    retrieval service: both chat endpoints answer and save the same
    whatever it would return, and the reply of [POST /chat] names no
    context. *)
Theorem chat_without_rag (deps : Collaborators) (llm_service : LLMService)
  (request : ChatRequestModel) (retrieval : str -> Z -> result (option str)) :
  request_use_rag request = false ->
  chat (with_context deps retrieval) llm_service request
  = chat deps llm_service request
  /\ chat_stream (with_context deps retrieval) llm_service request
     = chat_stream deps llm_service request
  /\ forall reply,
       fst (chat deps llm_service request) = Reply reply ->
       reply_context_used reply = None.
Proof.
  intros Hr. split; [|split].
  - unfold chat. rewrite (chat_inputs_without_rag _ _ _ Hr). reflexivity.
  - unfold chat_stream. rewrite (chat_inputs_without_rag _ _ _ Hr).
    reflexivity.
  - intros reply.
    destruct (chat_inputs_cases deps request)
      as [(h & context & Hin & _) | (e & Hin & _)].
    + rewrite (chat_after_inputs _ _ _ _ _ Hin).
      destruct (generate_response llm_service _ _ _); [|discriminate].
      cbv zeta. destruct (save_conversation deps _); cbn [fst];
        intros H; [|discriminate].
      injection H as <-. cbn. rewrite Hr. reflexivity.
    + rewrite (chat_without_inputs _ _ _ _ Hin). discriminate.
Qed.

(** What [chat_stream] does once its inputs are there. *)
Lemma chat_stream_after_inputs (deps : Collaborators) (llm_service : LLMService)
  (request : ChatRequestModel) (chat_history : list Message)
  (context : option str) :
  chat_inputs deps request
  = (Done (chat_session_id deps request, chat_history, context), []) ->
  chat_stream deps llm_service request
  = (Reply (fst (generate deps llm_service request
                   (chat_session_id deps request) chat_history context)),
     snd (generate deps llm_service request
            (chat_session_id deps request) chat_history context)).
Proof.
  intros Hin. unfold chat_stream. rewrite Hin. cbn [except_500].
  destruct (generate deps llm_service request _ _ _). reflexivity.
Qed.

Lemma generate_cases (deps : Collaborators) (llm_service : LLMService)
  (request : ChatRequestModel) (session_id : str)
  (chat_history : list Message) (context : option str) :
  let stream :=
    generate_streaming_response llm_service (request_query request) context
      (Some chat_history) in
  let saved :=
    {| saved_session_id := session_id;
       saved_user_message := request_query request;
       saved_bot_response := concat (fst stream);
       saved_context_used := context |} in
  generate deps llm_service request session_id chat_history context
  = match snd stream with
    | Some e => ({| stream_body := fst stream; stream_error := Some e |}, [])
    | None =>
        ({| stream_body := fst stream;
            stream_error :=
              match save_conversation deps saved with
              | Ok _ => None
              | Raise e => Some e
              end |}, [saved])
    end.
Proof.
  cbv zeta. unfold generate.
  destruct (generate_streaming_response llm_service _ _ _) as [fragments [e|]];
    cbn [fst snd]; [reflexivity|].
  rewrite fold_left_concat. cbn [app].
  destruct (save_conversation deps _); reflexivity.
Qed.

(** X25.  When the body of [POST /chat/stream] has been sent without an
    error, [save_conversation] has been called once, after the last
    fragment, and the response it stores is the concatenation of the
    fragments the client received. *)
Theorem chat_stream_saves_what_was_sent (deps : Collaborators)
  (llm_service : LLMService) (request : ChatRequestModel)
  (sent : StreamingResponse) :
  fst (chat_stream deps llm_service request) = Reply sent ->
  stream_error sent = None ->
  exists saved,
    snd (chat_stream deps llm_service request) = [saved]
    /\ saved_bot_response saved = concat (stream_body sent)
    /\ saved_user_message saved = request_query request
    /\ saved_session_id saved = chat_session_id deps request
    /\ save_conversation deps saved = Ok tt.
Proof.
  destruct (chat_inputs_cases deps request)
    as [(history & context & Hin & _) | (e & Hin & _)].
  - rewrite (chat_stream_after_inputs _ _ _ _ _ Hin), generate_cases.
    cbv zeta. cbn [fst snd].
    destruct (snd (generate_streaming_response _ _ _ _)) as [e|];
      cbn [fst snd]; intros H; injection H as <-; cbn; [discriminate|].
    destruct (save_conversation deps _) as [[]|e] eqn:Hsave; [|discriminate].
    intros _. eexists. split; [reflexivity|]. cbn. auto.
  - unfold chat_stream. rewrite Hin. discriminate.
Qed.

(** X26.  A failure of the generation while [POST /chat/stream] sends
    its body is not answered with status 500: the reply has begun, the
    client has received the fragments yielded before the failure, and
    nothing is saved.  [POST /chat] answers the failure of its own
    generation with status 500. *)
Theorem chat_stream_generation_failure (deps : Collaborators)
  (llm_service : LLMService) (request : ChatRequestModel)
  (chat_history : list Message) (context : option str)
  (fragments : list str) (e : exn) :
  chat_inputs deps request
  = (Done (chat_session_id deps request, chat_history, context), []) ->
  generate_streaming_response llm_service (request_query request) context
    (Some chat_history) = (fragments, Some e) ->
  chat_stream deps llm_service request
  = (Reply {| stream_body := fragments; stream_error := Some e |}, [])
  /\ forall e',
       generate_response llm_service (request_query request) context
         (Some chat_history) = Raise e' ->
       chat deps llm_service request = (HTTPException 500 (exn_str e'), []).
Proof.
  intros Hin Hstream. split.
  - rewrite (chat_stream_after_inputs _ _ _ _ _ Hin), generate_cases.
    cbv zeta. rewrite Hstream. reflexivity.
  - intros e' Hgen. rewrite (chat_after_inputs _ _ _ _ _ Hin), Hgen.
    reflexivity.
Qed.


(** ** Switching the backend and reporting it *)

(** X28.  [POST /switch-model] never answers with status 400: the
    refusal for a missing local model is raised inside the [try] block
    and leaves it as status 500, like every other failure; after an
    error the service in use is the one from before the call. *)
Theorem switch_model_errors (w : World) (deps : Collaborators)
  (llm_service : LLMService) (use_local : bool) (status_code : Z)
  (detail : str) :
  fst (switch_model w deps llm_service use_local)
  = HTTPException status_code detail ->
  status_code = 500%Z
  /\ snd (switch_model w deps llm_service use_local) = llm_service
  /\ (use_local = true ->
      path_exists w (env_local_model_path w) = false ->
      detail
      = http_exception_str deps 400
          (py "Local model not found at " ++ env_local_model_path w)).
Proof.
  unfold switch_model. cbv zeta.
  destruct (use_local && negb (path_exists w (env_local_model_path w))) eqn:Hg.
  - cbn [fst snd raised_str]. intros H. injection H as <- <-. auto.
  - destruct (create_llm_service w) as [service | e]; cbn [fst snd];
      intros H; [discriminate|].
    injection H as <- <-. split; [reflexivity|]. split; [reflexivity|].
    intros -> Hp. rewrite Hp in Hg. discriminate.
Qed.

(** X29.  When [POST /switch-model] succeeds, the service in use is the
    one the factory has built from the environment; the argument
    [use_local] decides the wording of the message only: a call with the
    other value that succeeds installs the same service and reports the
    same [model_type]. *)
Theorem switch_model_follows_environment (w : World) (deps : Collaborators)
  (llm_service : LLMService) (use_local : bool) (body : Message) :
  fst (switch_model w deps llm_service use_local) = Reply body ->
  create_llm_service w = Ok (snd (switch_model w deps llm_service use_local))
  /\ body !! py "model_type"
     = Some (model_type (snd (switch_model w deps llm_service use_local)))
  /\ body !! py "message"
     = Some (py "Switched to " ++ (if use_local then py "local" else py "groq")
             ++ py " model")
  /\ forall previous other body',
       fst (switch_model w deps previous other) = Reply body' ->
       snd (switch_model w deps previous other)
       = snd (switch_model w deps llm_service use_local)
       /\ body' !! py "model_type" = body !! py "model_type".
Proof.
  assert (Hcases : forall previous flag body0,
            fst (switch_model w deps previous flag) = Reply body0 ->
            create_llm_service w = Ok (snd (switch_model w deps previous flag))
            /\ body0 !! py "model_type"
               = Some (model_type (snd (switch_model w deps previous flag)))
            /\ body0 !! py "message"
               = Some (py "Switched to "
                       ++ (if flag then py "local" else py "groq")
                       ++ py " model")).
  { intros previous flag body0. unfold switch_model. cbv zeta.
    destruct (flag && negb (path_exists w (env_local_model_path w)));
      [discriminate|].
    destruct (create_llm_service w) as [service | e]; [|discriminate].
    cbn [fst snd]. intros H. injection H as <-.
    split; [reflexivity|]. split.
    - rewrite lookup_insert_ne by (vm_compute; discriminate).
      rewrite lookup_insert_ne by (vm_compute; discriminate).
      apply lookup_insert_eq.
    - rewrite lookup_insert_ne by (vm_compute; discriminate).
      apply lookup_insert_eq. }
  intros H. destruct (Hcases _ _ _ H) as (Hc & Ht & Hm).
  split; [exact Hc|]. split; [exact Ht|]. split; [exact Hm|].
  intros previous other body' H'.
  destruct (Hcases _ _ _ H') as (Hc' & Ht' & _).
  assert (Hsame : snd (switch_model w deps previous other)
                  = snd (switch_model w deps llm_service use_local))
    by congruence.
  split; [exact Hsame|]. rewrite Ht', Ht, Hsame. reflexivity.
Qed.

(** X30.  For a service the factory has built, [GET /model-info] reports
    either the type ["groq"] with the model name
    ["llama-3.1-8b-instant"], or the type ["local"] with the device
    ["cuda"] or ["cpu"] and the model path of the environment. *)
Theorem model_info_of_factory_service (w : World) (service : LLMService) :
  create_llm_service w = Ok service ->
  let info := get_model_info w service in
  info !! py "status" = Some (py "active")
  /\ ((info !! py "model_type" = Some (py "groq")
       /\ info !! py "model_name" = Some (py "llama-3.1-8b-instant")
       /\ info !! py "device" = None)
      \/ (info !! py "model_type" = Some (py "local")
          /\ (info !! py "device" = Some (py "cuda")
              \/ info !! py "device" = Some (py "cpu"))
          /\ info !! py "model_path" = Some (env_local_model_path w)
          /\ info !! py "model_name" = None)).
Proof.
  intros Hcreate.
  assert (Hshape :
    (exists client, service = GroqService client GROQ_MODEL)
    \/ (exists generator,
          service = LocalService
                      (if cuda_is_available w then py "cuda" else py "cpu")
                      generator)).
  { revert Hcreate. unfold create_llm_service, LLMService_init.
    assert (Hgroq : forall s, _init_groq w = Ok s ->
              exists client, s = GroqService client GROQ_MODEL).
    { unfold _init_groq. intros s. destruct (Groq w _); [|discriminate].
      intros H. injection H as <-. eauto. }
    destruct (env_use_local w).
    - rewrite init_local_resolved.
      destruct (negb (path_exists w (env_local_model_path w)));
        [intros H; left; apply Hgroq, H|].
      destruct (load_pipeline w _ _) as [generator | e].
      + intros H. injection H as <-. right. eauto.
      + intros H. left. apply Hgroq, H.
    - destruct (_init_groq w) eqn:Hg; intros H; left; apply Hgroq; congruence. }
  cbv zeta. destruct Hshape as [[client ->] | [generator ->]];
    unfold get_model_info, model_type; cbn [use_local_model].
  - split.
    + rewrite lookup_insert_ne by (vm_compute; discriminate).
      apply lookup_insert_eq.
    + left. split; [|split].
      * rewrite !lookup_insert_ne by (vm_compute; discriminate).
        apply lookup_insert_eq.
      * apply lookup_insert_eq.
      * rewrite !lookup_insert_ne by (vm_compute; discriminate).
        apply lookup_empty.
  - split.
    + rewrite !lookup_insert_ne by (vm_compute; discriminate).
      apply lookup_insert_eq.
    + right. split; [|split; [|split]].
      * rewrite !lookup_insert_ne by (vm_compute; discriminate).
        apply lookup_insert_eq.
      * rewrite lookup_insert_ne by (vm_compute; discriminate).
        rewrite lookup_insert_eq.
        destruct (cuda_is_available w); auto.
      * apply lookup_insert_eq.
      * rewrite !lookup_insert_ne by (vm_compute; discriminate).
        apply lookup_empty.
Qed.

(** * The further properties at sample inputs *)

Lemma clean_response_long_is_single_paragraph_witness :
  length (_clean_response (py "It opens at 9am." ++ NL ++ NL ++ py "Bring your ID."))
  <= 500.
Proof.
  apply (clean_response_long_is_single_paragraph
           (py "It opens at 9am." ++ NL ++ NL ++ py "Bring your ID.")).
  evaluate.
Defined.

Lemma clean_response_ignores_continuation_witness :
  _clean_response (py "It opens at 9am. Question: Anything else?")
  = _clean_response (py "It opens at 9am. Question: Where is it?")
  /\ forall rest, _clean_response (QUESTION_LABEL ++ rest) = [].
Proof.
  apply (clean_response_ignores_continuation
           (py "It opens at 9am. Question: Anything else?")
           (py "It opens at 9am. Question: Where is it?")).
  evaluate.
Defined.

Lemma clean_response_plain_text_witness :
  _clean_response (py "  It opens at 9am.  ") = strip (py "  It opens at 9am.  ").
Proof.
  apply (clean_response_plain_text (py "  It opens at 9am.  "));
    [evaluate | evaluate | left; evaluate].
Defined.

Lemma remote_stream_stops_at_empty_chunk_witness :
  exists fragments,
    generate_streaming_response (GroqService failing_client GROQ_MODEL)
      (py "When?") None None = (fragments, Some IndexError)
    /\ concat fragments = chunks_text [[Some (py "It opens")]].
Proof.
  apply (remote_stream_stops_at_empty_chunk failing_client GROQ_MODEL
           (py "When?") None None [[Some (py "It opens")]]
           [[Some (py " late")]]).
  - reflexivity.
  - repeat constructor. discriminate.
Defined.


Lemma older_turns_are_ignored_witness :
  generate_response (GroqService (sample_client None) GROQ_MODEL) (py "When?")
    None (Some ([turn "user" "zero"] ++ sample_history))
  = generate_response (GroqService (sample_client None) GROQ_MODEL) (py "When?")
      None (Some sample_history)
  /\ generate_streaming_response (GroqService (sample_client None) GROQ_MODEL)
       (py "When?") None (Some ([turn "user" "zero"] ++ sample_history))
     = generate_streaming_response (GroqService (sample_client None) GROQ_MODEL)
         (py "When?") None (Some sample_history).
Proof.
  apply (older_turns_are_ignored (GroqService (sample_client None) GROQ_MODEL)
           (py "When?") None [turn "user" "zero"] sample_history).
  cbn [use_local_model sample_history length]. lia.
Defined.

Lemma create_llm_service_local_iff_witness :
  create_llm_service world_with_model
  = Ok (LocalService (py "cpu") (echo_generator (py " It opens soon")))
  /\ use_local_model
       (LocalService (py "cpu") (echo_generator (py " It opens soon"))) = true.
Proof.
  apply (create_llm_service_local_iff world_with_model).
  split; [evaluate|]. split; [reflexivity|].
  exists (echo_generator (py " It opens soon")). split; reflexivity.
Defined.

Lemma create_llm_service_remote_cases_witness :
  create_llm_service world_with_broken_model = _init_groq world_with_broken_model
  /\ (forall e,
        Groq world_with_broken_model
          (getenv world_with_broken_model (py "GROQ_API_KEY")) = Raise e ->
        create_llm_service world_with_broken_model = Raise e).
Proof.
  apply (create_llm_service_remote_cases world_with_broken_model).
  right. right. exists (LibraryError (py "no weights")). reflexivity.
Defined.

Lemma local_generation_without_continuation_witness :
  generate_response (LocalService (py "cpu") (fun prompt => take 10 prompt))
    (py "When does the library open?") None None = Ok []
  /\ generate_streaming_response
       (LocalService (py "cpu") (fun prompt => take 10 prompt))
       (py "When does the library open?") None None = ([], None).
Proof.
  apply (local_generation_without_continuation (py "cpu")
           (fun prompt => take 10 prompt) (py "When does the library open?")
           None None).
  rewrite length_take. lia.
Defined.

Lemma chat_errors_witness :
  chat (with_history sample_deps broken_store)
    (GroqService (sample_client None) GROQ_MODEL) sample_request
  = (HTTPException 500 (py "database is locked"), [])
  /\ chat (with_context sample_deps broken_retrieval)
       (GroqService (sample_client None) GROQ_MODEL) sample_request
     = (HTTPException 500 (py "vector store unavailable"), [])
  /\ chat sample_deps (GroqService failing_client GROQ_MODEL) sample_request
     = (HTTPException 500 (py "list index out of range"), []).
Proof.
  split; [|split].
  - pose proof (chat_errors (with_history sample_deps broken_store)
                  (GroqService (sample_client None) GROQ_MODEL) sample_request)
      as H.
    cbv zeta in H. destruct H as (Hstore & _).
    apply (Hstore (LibraryError (py "database is locked"))); reflexivity.
  - pose proof (chat_errors (with_context sample_deps broken_retrieval)
                  (GroqService (sample_client None) GROQ_MODEL) sample_request)
      as H.
    cbv zeta in H. destruct H as (_ & Hretrieval & _).
    apply (Hretrieval sample_history
             (LibraryError (py "vector store unavailable"))); reflexivity.
  - pose proof (chat_errors sample_deps (GroqService failing_client GROQ_MODEL)
                  sample_request) as H.
    cbv zeta in H. destruct H as (_ & _ & Hgeneration & _).
    apply (Hgeneration sample_history (Some (py "Library hours: 9am-5pm."))
             IndexError); reflexivity.
Defined.

Lemma chat_reply_witness :
  exists chat_history context,
    Ok sample_history = Ok chat_history
    /\ Ok (Some (py "Library hours: 9am-5pm.")) = Ok context
    /\ generate_response (GroqService parrot_client GROQ_MODEL)
         (request_query sample_request) context (Some chat_history)
       = Ok (py "three four five six seven When does the library open?")
    /\ Some (py "Library hours: 9am-5pm.") = context
    /\ py "s1" = chat_session_id sample_deps sample_request
    /\ snd (chat sample_deps (GroqService parrot_client GROQ_MODEL)
              sample_request)
       = [{| saved_session_id := py "s1";
             saved_user_message := request_query sample_request;
             saved_bot_response :=
               py "three four five six seven When does the library open?";
             saved_context_used := context |}].
Proof.
  apply (chat_reply sample_deps (GroqService parrot_client GROQ_MODEL)
           sample_request
           {| reply_response :=
                py "three four five six seven When does the library open?";
              reply_context_used := Some (py "Library hours: 9am-5pm.");
              reply_session_id := py "s1" |}).
  evaluate.
Defined.

Lemma chat_without_session_witness :
  chat (with_history sample_deps broken_store)
    (GroqService (sample_client None) GROQ_MODEL) anonymous_request
  = chat sample_deps (GroqService (sample_client None) GROQ_MODEL)
      anonymous_request.
Proof.
  apply (chat_without_session sample_deps
           (GroqService (sample_client None) GROQ_MODEL) anonymous_request
           broken_store).
  reflexivity.
Defined.

Lemma chat_without_rag_witness :
  chat (with_context sample_deps (fun _ _ => Raise IndexError))
    (GroqService (sample_client None) GROQ_MODEL) anonymous_request
  = chat sample_deps (GroqService (sample_client None) GROQ_MODEL)
      anonymous_request.
Proof.
  apply (chat_without_rag sample_deps
           (GroqService (sample_client None) GROQ_MODEL) anonymous_request
           (fun _ _ => Raise IndexError)).
  reflexivity.
Defined.

Lemma chat_stream_saves_what_was_sent_witness :
  exists saved,
    snd (chat_stream sample_deps (GroqService (sample_client None) GROQ_MODEL)
           sample_request) = [saved]
    /\ saved_bot_response saved
       = concat [py "It opens"; py " at 9am."]
    /\ saved_user_message saved = request_query sample_request
    /\ saved_session_id saved = chat_session_id sample_deps sample_request
    /\ save_conversation sample_deps saved = Ok tt.
Proof.
  apply (chat_stream_saves_what_was_sent sample_deps
           (GroqService (sample_client None) GROQ_MODEL) sample_request
           {| stream_body := [py "It opens"; py " at 9am."];
              stream_error := None |}).
  - evaluate.
  - reflexivity.
Defined.

Lemma chat_stream_generation_failure_witness :
  chat_stream sample_deps (GroqService failing_client GROQ_MODEL) sample_request
  = (Reply {| stream_body := [py "It opens"]; stream_error := Some IndexError |},
     [])
  /\ chat sample_deps (GroqService failing_client GROQ_MODEL) sample_request
     = (HTTPException 500 (py "list index out of range"), []).
Proof.
  destruct (chat_stream_generation_failure sample_deps
              (GroqService failing_client GROQ_MODEL) sample_request
              sample_history (Some (py "Library hours: 9am-5pm."))
              [py "It opens"] IndexError) as [Hstream Hchat];
    [evaluate | evaluate |].
  split; [exact Hstream | apply (Hchat IndexError); reflexivity].
Defined.


Lemma switch_model_errors_witness :
  (500 = 500)%Z
  /\ snd (switch_model (world_without_model None) sample_deps
            (GroqService (sample_client None) GROQ_MODEL) true)
     = GroqService (sample_client None) GROQ_MODEL
  /\ (true = true ->
      path_exists (world_without_model None)
        (env_local_model_path (world_without_model None)) = false ->
      py "Local model not found at ./trained_model/final_model"
      = http_exception_str sample_deps 400
          (py "Local model not found at "
           ++ env_local_model_path (world_without_model None))).
Proof.
  apply (switch_model_errors (world_without_model None) sample_deps
           (GroqService (sample_client None) GROQ_MODEL) true 500
           (py "Local model not found at ./trained_model/final_model")).
  evaluate.
Defined.

Lemma switch_model_follows_environment_witness :
  create_llm_service world_with_model
  = Ok (snd (switch_model world_with_model sample_deps
               (GroqService (sample_client None) GROQ_MODEL) false))
  /\ use_local_model
       (snd (switch_model world_with_model sample_deps
               (GroqService (sample_client None) GROQ_MODEL) false)) = true
  /\ fst (switch_model world_with_model sample_deps
            (GroqService (sample_client None) GROQ_MODEL) false)
     = Reply (<[py "status" := py "success"]>
                (<[py "message" := py "Switched to groq model"]>
                   (<[py "model_type" := py "local"]> ∅))).
Proof.
  split; [|split; reflexivity].
  apply (switch_model_follows_environment world_with_model sample_deps
           (GroqService (sample_client None) GROQ_MODEL) false
           (<[py "status" := py "success"]>
              (<[py "message" := py "Switched to groq model"]>
                 (<[py "model_type" := py "local"]> ∅)))).
  reflexivity.
Defined.

Lemma model_info_of_factory_service_witness :
  get_model_info world_with_model
    (LocalService (py "cpu") (echo_generator (py " It opens soon")))
  !! py "device" = Some (py "cpu").
Proof.
  destruct (model_info_of_factory_service world_with_model
              (LocalService (py "cpu") (echo_generator (py " It opens soon"))))
    as [_ [(H & _) | (_ & [H | H] & _)]];
    [evaluate | vm_compute in H; discriminate
     | vm_compute in H; discriminate | exact H].
Defined.
